(** * WazMeow: the multi-session connection orchestrator

    A shallow embedding of [internal/services/session_manager.go]
    (the [MultiSessionManager]) together with the parts of the [domain]
    package and of the session repository it calls, followed by the
    properties of the orchestrator.

    Conventions of the embedding.
    - Go strings are [string]; [type SessionID string], [type Status string]
      and [type ConnectionStatus string] stay strings, their constants are
      the constants of the source.
    - [map[SessionID]*SessionClient] is a [gmap] from session IDs to
      addresses, and the [SessionClient] objects live in a heap: the map
      and the worker goroutine share one object, as the pointers do in Go.
    - A method is a computation in the monad [M]: it threads the [World],
      may panic, and may block (sleep, channel receive).  Every external
      call, lock operation, log line and [go] statement is appended to the
      world's trace.
    - The protocol client, the device store and the QR encoder are
      collaborators outside the orchestrator; their answers are the fields
      of [External]. *)

From stdpp Require Import gmap strings list pretty sorting.
From Stdlib Require Import ZArith.

(** ** Package domain *)

Module domain.

Abbreviation SessionID := string.
Abbreviation Status := string.

Definition StatusDisconnected : Status := "disconnected".
Definition StatusConnecting : Status := "connecting".
Definition StatusConnected : Status := "connected".
Definition StatusError : Status := "error".

(** [Status.IsValid]. *)
Definition Status_IsValid (s : Status) : bool :=
  bool_decide (s = StatusDisconnected) || bool_decide (s = StatusConnecting)
  || bool_decide (s = StatusConnected) || bool_decide (s = StatusError).

(** Go [error] values.  [Wrapf msg e] is [fmt.Errorf(msg + ": %w", e)],
    [Errorf msg] a plain [fmt.Errorf(msg)]; [DriverError] is whatever the
    SQL driver reports; [ExternalError] an error of the protocol client,
    the device store or the QR encoder. *)
Inductive error : Type :=
  | NotFoundError (resource id : string)
  | DriverError (msg : string)
  | ExternalError (msg : string)
  | MaxSessionsError (limit : Z)
  | Errorf (msg : string)
  | Wrapf (msg : string) (wrapped : error).

Definition ErrSessionNotFound (id : SessionID) : error :=
  NotFoundError "Session" id.

Record Session : Type := mkSession {
  ID : SessionID;
  Name : string;
  Status_ : Status;
  WebhookURL : string;
  WAJID : string;
  QRCode : string;
  Events : string;
  ProxyURL : string;
  DeviceName : string;
  IsActive : bool;
  CreatedAt : Z;
  UpdatedAt : Z;
  LastConnectedAt : option Z
}.

(** The [Repository] interface, restricted to the methods the
    orchestrator calls.  A read returns a value or an error; a write
    returns the new store and the error, if any. *)
Class Repository (R : Type) : Type := {
  GetByID : R -> SessionID -> Session + error;
  UpdateStatus : R -> SessionID -> Status -> R * option error;
  SetWAJID : R -> SessionID -> string -> R * option error;
  SetQRCode : R -> SessionID -> string -> R * option error;
  GetConnectedSessions : R -> list Session + error
}.

End domain.

(** ** Package repository: the SQL-backed implementation *)

Module repository.
Import domain.

(** The table [sessions], a flag for a failing database connection and
    the database clock read by [NOW()]. *)
Record sessionRepository : Type := mkRepo {
  rows : list Session;
  db_failure : option string;
  db_now : Z
}.

Definition has_id (id : SessionID) (s : Session) : bool :=
  bool_decide (ID s = id).

Definition set_status (st : Status) (now : Z) (s : Session) : Session :=
  mkSession (ID s) (Name s) st (WebhookURL s) (WAJID s) (QRCode s)
    (Events s) (ProxyURL s) (DeviceName s) (IsActive s) (CreatedAt s) now
    (LastConnectedAt s).

Definition set_wa_jid (jid : string) (now : Z) (s : Session) : Session :=
  mkSession (ID s) (Name s) (Status_ s) (WebhookURL s) jid (QRCode s)
    (Events s) (ProxyURL s) (DeviceName s) (IsActive s) (CreatedAt s) now
    (LastConnectedAt s).

Definition set_qr_code (qr : string) (now : Z) (s : Session) : Session :=
  mkSession (ID s) (Name s) (Status_ s) (WebhookURL s) (WAJID s) qr
    (Events s) (ProxyURL s) (DeviceName s) (IsActive s) (CreatedAt s) now
    (LastConnectedAt s).

(** [UPDATE sessions SET ... WHERE id = ?]: the rows after the update
    and the number of rows affected. *)
Definition update_where_id (id : SessionID) (f : Session -> Session)
    (tbl : list Session) : list Session * nat :=
  (map (fun s => if has_id id s then f s else s) tbl,
   length (filter (fun s => has_id id s = true) tbl)).

Definition exec_update (what : string) (id : SessionID)
    (f : Z -> Session -> Session) (r : sessionRepository)
    : sessionRepository * option error :=
  match db_failure r with
  | Some e => (r, Some (Wrapf what (DriverError e)))
  | None =>
      let '(tbl, rowsAffected) := update_where_id id (f (db_now r)) (rows r) in
      if Nat.eqb rowsAffected 0
      then (r, Some (ErrSessionNotFound id))
      else (mkRepo tbl None (db_now r), None)
  end.

Definition GetByID (r : sessionRepository) (id : SessionID) : Session + error :=
  match db_failure r with
  | Some e => inr (Wrapf "failed to get session" (DriverError e))
  | None =>
      match find (has_id id) (rows r) with
      | Some s => inl s
      | None => inr (ErrSessionNotFound id)
      end
  end.

(** [ORDER BY created_at DESC], by insertion. *)
Fixpoint insert_desc (s : Session) (l : list Session) : list Session :=
  match l with
  | [] => [s]
  | t :: l' =>
      if (CreatedAt t <=? CreatedAt s)%Z then s :: l else t :: insert_desc s l'
  end.

Definition order_created_desc (l : list Session) : list Session :=
  foldr insert_desc [] l.

Definition GetByStatus (r : sessionRepository) (st : Status)
    : list Session + error :=
  match db_failure r with
  | Some e => inr (Wrapf "failed to get sessions by status" (DriverError e))
  | None =>
      inl (order_created_desc
             (filter (fun s => Status_ s = st) (rows r)))
  end.

Definition UpdateStatus (r : sessionRepository) (id : SessionID) (st : Status) :=
  exec_update "failed to update session status" id (set_status st) r.

Definition SetWAJID (r : sessionRepository) (id : SessionID) (jid : string) :=
  exec_update "failed to set WAJID" id (set_wa_jid jid) r.

Definition SetQRCode (r : sessionRepository) (id : SessionID) (qr : string) :=
  exec_update "failed to set QR code" id (set_qr_code qr) r.

Definition GetConnectedSessions (r : sessionRepository) :=
  GetByStatus r StatusConnected.

#[export] Instance sessionRepository_Repository : Repository sessionRepository := {|
  domain.GetByID := GetByID;
  domain.UpdateStatus := UpdateStatus;
  domain.SetWAJID := SetWAJID;
  domain.SetQRCode := SetQRCode;
  domain.GetConnectedSessions := GetConnectedSessions
|}.

(** *** The other methods of the repository *)

(** [Update]: every column of the rows with the session's ID is set from
    the session. *)
Definition Update (r : sessionRepository) (sess : Session) :=
  exec_update "failed to update session" (ID sess) (fun _ _ => sess) r.

(** [Delete]: [DELETE FROM sessions WHERE id = ?]. *)
Definition Delete (r : sessionRepository) (id : SessionID)
    : sessionRepository * option error :=
  match db_failure r with
  | Some e => (r, Some (Wrapf "failed to delete session" (DriverError e)))
  | None =>
      let rowsAffected := length (filter (fun s => has_id id s = true) (rows r)) in
      if Nat.eqb rowsAffected 0
      then (r, Some (ErrSessionNotFound id))
      else (mkRepo (filter (fun s => has_id id s = false) (rows r)) None
              (db_now r), None)
  end.

(** [ExistsByID]: [SELECT count( * ) ... WHERE id = ?] is positive. *)
Definition ExistsByID (r : sessionRepository) (id : SessionID)
    : bool * option error :=
  match db_failure r with
  | Some e =>
      (false, Some (Wrapf "failed to check session existence" (DriverError e)))
  | None =>
      (bool_decide (0 < length (filter (fun s => has_id id s = true) (rows r))),
       None)
  end.

Definition ClearQRCode (r : sessionRepository) (id : SessionID) :=
  SetQRCode r id "".

(** [BulkUpdateStatus]: nothing is sent to the database for an empty list
    of IDs; otherwise the rows whose ID is in the list are updated, and
    the number of rows affected is only logged. *)
Definition BulkUpdateStatus (r : sessionRepository) (ids : list SessionID)
    (st : Status) : sessionRepository * option error :=
  if bool_decide (length ids = 0) then (r, None)
  else
    match db_failure r with
    | Some e =>
        (r, Some (Wrapf "failed to bulk update session status" (DriverError e)))
    | None =>
        (mkRepo (map (fun s => if bool_decide (ID s ∈ ids)
                               then set_status st (db_now r) s else s)
                   (rows r))
           None (db_now r), None)
    end.

End repository.

(** ** Package services: the multi-session manager *)

Module services.
Import domain.

Abbreviation ConnectionStatus := string.

Definition StatusDisconnected : ConnectionStatus := "disconnected".
Definition StatusConnecting : ConnectionStatus := "connecting".
Definition StatusConnected : ConnectionStatus := "connected".
Definition StatusError : ConnectionStatus := "error".

(** A [*whatsmeow.Client] is a handle; a [*SessionClient] an address in
    the heap. *)
Abbreviation whatsmeow_Client := nat.
Abbreviation loc := nat.

(** [store.Device]: [DeviceID] is the field [ID], nil until the device is
    paired. *)
Record store_Device : Type := mkDevice {
  DeviceID : option string;
  PushName : string;
  Platform : string
}.

(** [KillChannel] is [make(chan bool, 1)]: the values buffered in it. *)
Record SessionClient : Type := mkSessionClient {
  Client : option whatsmeow_Client;
  Device : option store_Device;
  KillChannel : list bool;
  Status : ConnectionStatus;
  LastSeen : Z
}.

Definition with_KillChannel (ch : list bool) (sc : SessionClient) : SessionClient :=
  mkSessionClient (Client sc) (Device sc) ch (Status sc) (LastSeen sc).

Definition with_Status (st : ConnectionStatus) (sc : SessionClient) : SessionClient :=
  mkSessionClient (Client sc) (Device sc) (KillChannel sc) st (LastSeen sc).

Definition with_LastSeen (t : Z) (sc : SessionClient) : SessionClient :=
  mkSessionClient (Client sc) (Device sc) (KillChannel sc) (Status sc) t.

(** [context.Context], as far as [ctx.Done()] goes: the background
    context is never done. *)
Inductive Context : Type := Background | Canceled.

Definition ctx_done (ctx : Context) : bool :=
  match ctx with Background => false | Canceled => true end.

(** One item of the client's QR channel. *)
Record QRChannelItem : Type := mkQRItem {
  Event : string;
  Code : string
}.

(** The events the handler installed by [setupEventHandlers] receives. *)
Inductive WAEvent : Type :=
  | events_Connected
  | events_Disconnected
  | events_PairSuccess (jid : string)
  | events_Other.

(** The goroutines the manager starts with [go]. *)
Inductive Task : Type :=
  | GoConnectOnStartup
  | GoStartSession (sessionID : SessionID)
  | GoHandleSessionConnection (sessionID : SessionID) (p : loc)
  | GoHandleQRCodeGeneration (sessionID : SessionID) (p : loc)
  | GoUpdateStatus (sessionID : SessionID) (status : ConnectionStatus).

Inductive Level : Type := Info | Warn | Error.

(** What a goroutine does to the outside, in order. *)
Inductive Action : Type :=
  | Lock | Unlock | RLock | RUnlock
  | CallGetByID (id : SessionID)
  | CallUpdateStatus (id : SessionID) (st : domain.Status)
  | CallSetWAJID (id : SessionID) (jid : string)
  | CallSetQRCode (id : SessionID) (qr : string)
  | CallGetConnectedSessions
  | CallGetOrCreateDevice (id : SessionID) (jid : string)
  | CallNewClient (c : whatsmeow_Client)
  | CallAddEventHandler (c : whatsmeow_Client)
  | CallGetQRChannel (c : whatsmeow_Client)
  | CallConnect (c : whatsmeow_Client)
  | CallDisconnect (c : whatsmeow_Client)
  | PrintQR (code : string)
  | Sleep (ms : Z)
  | Go (t : Task)
  | Log (lvl : Level) (msg : string) (sessionID : SessionID).

#[export] Instance Task_eq_dec : EqDecision Task.
Proof. solve_decision. Defined.

#[export] Instance Level_eq_dec : EqDecision Level.
Proof. solve_decision. Defined.

#[export] Instance Action_eq_dec : EqDecision Action.
Proof. solve_decision. Defined.

(** What [Client.Connect()] does. *)
Inductive ConnectResult : Type :=
  | ConnectOk
  | ConnectError (err : error)
  | ConnectPanic (v : string).

(** The collaborators: device store, protocol client, QR encoder. *)
Record External : Type := mkExternal {
  storeManager_GetOrCreateDevice : SessionID -> string -> store_Device + error;
  Client_Connect : whatsmeow_Client -> ConnectResult;
  Client_GetQRChannel : whatsmeow_Client -> list QRChannelItem + error;
  qrcode_Encode : string -> string + error;
  base64_EncodeToString : string -> string
}.

Section Manager.
Context {R : Type} `{!Repository R}.
Variable ext : External.

(** The [MultiSessionManager] with the heap its pointers point into, the
    durable store behind [sessionRepo], the wall clock in milliseconds and
    the trace of actions so far.  The projections are primitive, so that
    reading a field of an updated world is one step of computation. *)
#[local] Set Primitive Projections.
Record World : Type := mkWorld {
  sessions : gmap SessionID loc;
  heap : gmap loc SessionClient;
  next_client : whatsmeow_Client;
  maxSessions : Z;
  sessionRepo : R;
  clock : Z;
  trace : list Action
}.

#[local] Unset Primitive Projections.

Definition set_sessions (f : gmap SessionID loc -> gmap SessionID loc) (w : World) : World :=
  mkWorld (f (sessions w)) (heap w) (next_client w) (maxSessions w)
    (sessionRepo w) (clock w) (trace w).

Definition set_heap (f : gmap loc SessionClient -> gmap loc SessionClient) (w : World) : World :=
  mkWorld (sessions w) (f (heap w)) (next_client w) (maxSessions w)
    (sessionRepo w) (clock w) (trace w).

Definition set_next_client (c : whatsmeow_Client) (w : World) : World :=
  mkWorld (sessions w) (heap w) c (maxSessions w)
    (sessionRepo w) (clock w) (trace w).

Definition set_sessionRepo (r : R) (w : World) : World :=
  mkWorld (sessions w) (heap w) (next_client w) (maxSessions w)
    r (clock w) (trace w).

Definition set_clock (t : Z) (w : World) : World :=
  mkWorld (sessions w) (heap w) (next_client w) (maxSessions w)
    (sessionRepo w) t (trace w).

Definition emit (a : Action) (w : World) : World :=
  mkWorld (sessions w) (heap w) (next_client w) (maxSessions w)
    (sessionRepo w) (clock w) (trace w ++ [a]).

(** *** The monad of goroutine code

    A run ends with a value, ends with a panic, or is parked at a blocking
    operation: [Blocked ready k w] can go on as [k w'] once the world [w']
    the other goroutines have produced satisfies [ready]. *)
Inductive Res (A : Type) : Type :=
  | Done (a : A) (w : World)
  | Panicked (v : string) (w : World)
  | Blocked (ready : World -> bool) (k : World -> Res A) (w : World).
Arguments Done {A} a w.
Arguments Panicked {A} v w.
Arguments Blocked {A} ready k w.

Definition M (A : Type) : Type := World -> Res A.

Definition ret {A} (a : A) : M A := fun w => Done a w.

Fixpoint bind_res {A B} (r : Res A) (f : A -> M B) : Res B :=
  match r with
  | Done a w => f a w
  | Panicked v w => Panicked v w
  | Blocked ready k w => Blocked ready (fun w' => bind_res (k w') f) w
  end.

Definition bind {A B} (m : M A) (f : A -> M B) : M B :=
  fun w => bind_res (m w) f.

Notation "'let*' x ':=' m 'in' k" := (bind m (fun x => k))
  (at level 10, x name, m at level 100, k at level 200).
Notation "m >> k" := (bind m (fun _ => k))
  (at level 100, k at level 200, right associativity).

Definition get : M World := fun w => Done w w.
Definition modify (f : World -> World) : M unit := fun w => Done tt (f w).
Definition panic {A} (v : string) : M A := fun w => Panicked v w.
Definition do (a : Action) : M unit := modify (emit a).

(** [defer d; body] for a deferred call that only acts on the world (an
    unlock): [d] runs when [body] returns and when it panics. *)
Fixpoint defer_res {A} (d : World -> World) (r : Res A) : Res A :=
  match r with
  | Done a w => Done a (d w)
  | Panicked v w => Panicked v (d w)
  | Blocked ready k w => Blocked ready (fun w' => defer_res d (k w')) w
  end.

Definition defer {A} (d : World -> World) (body : M A) : M A :=
  fun w => defer_res d (body w).

(** [defer func() { if r := recover(); r != nil { h r } }(); body]. *)
Fixpoint recover_res (h : string -> World -> World) (r : Res unit) : Res unit :=
  match r with
  | Done a w => Done a w
  | Panicked v w => Done tt (h v w)
  | Blocked ready k w => Blocked ready (fun w' => recover_res h (k w')) w
  end.

Definition defer_recover (h : string -> World -> World) (body : M unit) : M unit :=
  fun w => recover_res h (body w).

(** A blocking operation: goes on at once when [ready], parks otherwise. *)
Definition await {A} (ready : World -> bool) (k : M A) : M A :=
  fun w => if ready w then k w else Blocked ready k w.

Definition res_world {A} (r : Res A) : World :=
  match r with
  | Done _ w | Panicked _ w | Blocked _ _ w => w
  end.

Definition res_value {A} (r : Res A) : option A :=
  match r with
  | Done a _ => Some a
  | _ => None
  end.

(** The scheduler's moves on a parked goroutine: other goroutines change
    the world ([interfere]); the goroutine goes on when it can
    ([resume]). *)
Definition interfere {A} (f : World -> World) (r : Res A) : Res A :=
  match r with
  | Blocked ready k w => Blocked ready k (f w)
  | _ => r
  end.

Definition resume {A} (r : Res A) : Res A :=
  match r with
  | Blocked ready k w => if ready w then k w else r
  | _ => r
  end.

Fixpoint drive {A} (fuel : nat) (r : Res A) : Res A :=
  match fuel with
  | O => r
  | S n =>
      match r with
      | Blocked ready k w => if ready w then drive n (k w) else r
      | _ => r
      end
  end.

(** *** Primitive operations *)

Definition nil_dereference : string :=
  "runtime error: invalid memory address or nil pointer dereference".

Definition deref {A} (o : option A) : M A :=
  match o with
  | Some a => ret a
  | None => panic nil_dereference
  end.

Definition load (p : loc) : M SessionClient :=
  let* w := get in deref (heap w !! p).

Definition store (p : loc) (f : SessionClient -> SessionClient) : M unit :=
  let* sc := load p in modify (set_heap <[p := f sc]>).

(** [&SessionClient{...}]: a fresh address. *)
Definition new (sc : SessionClient) : M loc :=
  let* w := get in
  let p := fresh (dom (heap w)) in
  modify (set_heap <[p := sc]>) >> ret p.

Definition log (lvl : Level) (msg : string) (sessionID : SessionID) : M unit :=
  do (Log lvl msg sessionID).

Definition go (t : Task) : M unit := do (Go t).

Definition time_Now : M Z := let* w := get in ret (clock w).

(** [time.Sleep(d)]: the goroutine is parked and wakes up no earlier than
    [d] milliseconds later. *)
Definition time_Sleep (ms : Z) : M unit :=
  let* t := time_Now in
  do (Sleep ms) >>
  fun w => Blocked (fun _ => true)
                   (modify (fun w' => set_clock (Z.max (clock w') (t + ms)) w')) w.

Definition mutex_Lock : M unit := do Lock.
Definition mutex_Unlock : World -> World := emit Unlock.
Definition mutex_RLock : M unit := do RLock.
Definition mutex_RUnlock : M unit := do RUnlock.
Definition mutex_RUnlock_deferred : World -> World := emit RUnlock.

(** Calls of the repository behind [msm.sessionRepo]. *)
Definition sessionRepo_GetByID (id : SessionID) : M (Session + error) :=
  do (CallGetByID id) >>
  let* w := get in ret (GetByID (sessionRepo w) id).

Definition sessionRepo_write (a : Action) (f : R -> R * option error) : M (option error) :=
  do a >>
  let* w := get in
  let '(r, err) := f (sessionRepo w) in
  modify (set_sessionRepo r) >> ret err.

Definition sessionRepo_UpdateStatus (id : SessionID) (st : domain.Status) : M (option error) :=
  sessionRepo_write (CallUpdateStatus id st) (fun r => UpdateStatus r id st).

Definition sessionRepo_SetWAJID (id : SessionID) (jid : string) : M (option error) :=
  sessionRepo_write (CallSetWAJID id jid) (fun r => SetWAJID r id jid).

Definition sessionRepo_SetQRCode (id : SessionID) (qr : string) : M (option error) :=
  sessionRepo_write (CallSetQRCode id qr) (fun r => SetQRCode r id qr).

Definition sessionRepo_GetConnectedSessions : M (list Session + error) :=
  do CallGetConnectedSessions >>
  let* w := get in ret (GetConnectedSessions (sessionRepo w)).

(** Calls of the collaborators. *)
Definition GetOrCreateDevice (id : SessionID) (jid : string) : M (store_Device + error) :=
  do (CallGetOrCreateDevice id jid) >>
  ret (storeManager_GetOrCreateDevice ext id jid).

Definition whatsmeow_NewClient : M whatsmeow_Client :=
  let* w := get in
  let c := next_client w in
  modify (set_next_client (S c)) >> do (CallNewClient c) >> ret c.

Definition Connect (c : whatsmeow_Client) : M (option error) :=
  do (CallConnect c) >>
  match Client_Connect ext c with
  | ConnectOk => ret None
  | ConnectError err => ret (Some err)
  | ConnectPanic v => panic v
  end.

Definition Disconnect (c : whatsmeow_Client) : M unit := do (CallDisconnect c).

Definition GetQRChannel (c : whatsmeow_Client) : M (list QRChannelItem + error) :=
  do (CallGetQRChannel c) >> ret (Client_GetQRChannel ext c).

(** *** The methods of [MultiSessionManager] *)

(** [cleanupSessionUnsafe] (called with the mutex held): a non-blocking
    send on the kill channel, a disconnect, and the removal from the
    map.  It returns nil in every case. *)
Definition cleanupSessionUnsafe (sessionID : SessionID) : M (option error) :=
  let* w := get in
  match sessions w !! sessionID with
  | None => ret None
  | Some p =>
      let* sessionClient := load p in
      (if bool_decide (length (KillChannel sessionClient) < 1)
       then store p (fun sc => with_KillChannel (KillChannel sc ++ [true]) sc)
       else ret tt) >>
      match Client sessionClient with
      | Some c => Disconnect c
      | None => ret tt
      end >>
      modify (set_sessions (delete sessionID)) >>
      log Info "Session cleaned up" sessionID >>
      ret None
  end.

(** [StartSession] from "Check session limit" on. *)
Definition StartSession_register (sessionID : SessionID) : M (option error) :=
  let* w := get in
  if bool_decide (Z.of_nat (size (sessions w)) >= maxSessions w)%Z
  then ret (Some (MaxSessionsError (maxSessions w)))
  else
    let* r := sessionRepo_GetByID sessionID in
    match r with
    | inr err => ret (Some (Wrapf "failed to get session from database" err))
    | inl session =>
        let* d := GetOrCreateDevice sessionID (WAJID session) in
        match d with
        | inr err => ret (Some (Wrapf "failed to get or create device" err))
        | inl device =>
            let* client := whatsmeow_NewClient in
            let* now := time_Now in
            let* sessionClient :=
              new (mkSessionClient (Some client) (Some device) []
                     StatusDisconnected now) in
            modify (set_sessions <[sessionID := sessionClient]>) >>
            go (GoHandleSessionConnection sessionID sessionClient) >>
            log Info "Session started" sessionID >>
            ret None
        end
    end.

Definition StartSession (sessionID : SessionID) : M (option error) :=
  mutex_Lock >>
  defer mutex_Unlock (
    let* w := get in
    match sessions w !! sessionID with
    | Some p =>
        let* client := load p in
        if bool_decide (Status client = StatusConnected)
        then log Info "Session already connected" sessionID >> ret None
        else cleanupSessionUnsafe sessionID >> StartSession_register sessionID
    | None => StartSession_register sessionID
    end).

Definition StopSession (sessionID : SessionID) : M (option error) :=
  mutex_Lock >>
  defer mutex_Unlock (cleanupSessionUnsafe sessionID).

Definition GetSessionStatus (sessionID : SessionID) : M ConnectionStatus :=
  mutex_RLock >>
  defer mutex_RUnlock_deferred (
    let* w := get in
    match sessions w !! sessionID with
    | Some p => let* client := load p in ret (Status client)
    | None => ret StatusDisconnected
    end).

Definition IsSessionConnected (sessionID : SessionID) : M bool :=
  let* st := GetSessionStatus sessionID in
  ret (bool_decide (st = StatusConnected)).

Definition GetSessionCount : M Z :=
  mutex_RLock >>
  defer mutex_RUnlock_deferred (
    let* w := get in ret (Z.of_nat (size (sessions w)))).

(** The goroutine started by [updateSessionStatus]: the write to the
    store, whose error is only logged. *)
Definition toDomainStatus (status : ConnectionStatus) : domain.Status :=
  if bool_decide (status = StatusDisconnected) then domain.StatusDisconnected
  else if bool_decide (status = StatusConnecting) then domain.StatusConnecting
  else if bool_decide (status = StatusConnected) then domain.StatusConnected
  else if bool_decide (status = StatusError) then domain.StatusError
  else domain.StatusDisconnected.

Definition updateSessionStatus_write (sessionID : SessionID)
    (status : ConnectionStatus) : M unit :=
  let domainStatus := toDomainStatus status in
  let* err := sessionRepo_UpdateStatus sessionID domainStatus in
  match err with
  | Some _ => log Error "Failed to update session status in database" sessionID
  | None => log Info "Session status updated in database" sessionID
  end.

Definition updateSessionStatus (sessionID : SessionID)
    (status : ConnectionStatus) : M unit :=
  mutex_Lock >>
  defer mutex_Unlock (
    let* w := get in
    match sessions w !! sessionID with
    | Some p =>
        store p (with_Status status) >>
        let* now := time_Now in
        store p (with_LastSeen now) >>
        go (GoUpdateStatus sessionID status)
    | None => ret tt
    end).

(** The handler installed by [setupEventHandlers]. *)
Definition eventHandler (sessionID : SessionID) (evt : WAEvent) : M unit :=
  match evt with
  | events_Connected =>
      log Info "WhatsApp connected" sessionID >>
      updateSessionStatus sessionID StatusConnected
  | events_Disconnected =>
      log Info "WhatsApp disconnected" sessionID >>
      updateSessionStatus sessionID StatusDisconnected
  | events_PairSuccess jid =>
      log Info "WhatsApp pairing successful" sessionID >>
      let* err := sessionRepo_SetWAJID sessionID jid in
      match err with
      | Some _ => log Error "Failed to update session JID in database" sessionID
      | None => log Info "Session JID updated in database" sessionID
      end
  | events_Other => ret tt
  end.

Definition setupEventHandlers (sessionID : SessionID) (p : loc) : M unit :=
  let* sessionClient := load p in
  let* c := deref (Client sessionClient) in
  do (CallAddEventHandler c).

(** [generateQRCodeImage]: the code is shown on the terminal, encoded as
    a PNG and returned as a data URL. *)
Definition generateQRCodeImage (code : string) : M (string * option error) :=
  do (PrintQR code) >>
  match qrcode_Encode ext code with
  | inr err => ret ("", Some (Wrapf "failed to generate QR code image" err))
  | inl image =>
      ret ("data:image/png;base64," +:+ base64_EncodeToString ext image, None)
  end.

(** The body of the loop over the QR channel for one event: [true] to go
    on with the next event, [false] to return. *)
Definition handleQREvent (sessionID : SessionID) (evt : QRChannelItem) : M bool :=
  if bool_decide (Event evt = "code") then
    let* img := generateQRCodeImage (Code evt) in
    match img with
    | (_, Some _) =>
        log Error "Failed to generate QR code image" sessionID >> ret true
    | (qrCodeBase64, None) =>
        log Info "Attempting to store QR code in database" sessionID >>
        let* err := sessionRepo_SetQRCode sessionID qrCodeBase64 in
        match err with
        | Some _ => log Error "Failed to store QR code in database" sessionID
        | None => log Info "QR code generated and stored successfully" sessionID
        end >>
        ret true
    end
  else if bool_decide (Event evt = "success") then
    log Info "QR code pairing successful" sessionID >>
    let* err := sessionRepo_SetQRCode sessionID "" in
    match err with
    | Some _ => log Error "Failed to clear QR code from database" sessionID
    | None => ret tt
    end >>
    ret false
  else if bool_decide (Event evt = "timeout") then
    log Warn "QR code timeout" sessionID >>
    let* err := sessionRepo_SetQRCode sessionID "" in
    match err with
    | Some _ => log Error "Failed to clear QR code from database" sessionID
    | None => ret tt
    end >>
    ret false
  else
    log Info "QR code event" sessionID >> ret true.

Fixpoint handleQREvents (sessionID : SessionID) (qrChan : list QRChannelItem) : M unit :=
  match qrChan with
  | [] => ret tt
  | evt :: rest =>
      let* continue := handleQREvent sessionID evt in
      if continue then handleQREvents sessionID rest else ret tt
  end.

Definition handleQRCodeGeneration (ctx : Context) (sessionID : SessionID)
    (p : loc) : M unit :=
  let* sessionClient := load p in
  let* c := deref (Client sessionClient) in
  let* ch := GetQRChannel c in
  match ch with
  | inr _ => log Error "Failed to get QR channel" sessionID
  | inl qrChan =>
      let* err := Connect c in
      match err with
      | Some _ => log Error "Failed to connect client for QR generation" sessionID
      | None => handleQREvents sessionID qrChan
      end
  end.

(** [GenerateQRCode]: the registry is read under the read lock, which is
    released before the store is read. *)
Definition GenerateQRCode (sessionID : SessionID) : M (string * option error) :=
  mutex_RLock >>
  let* w := get in
  let entry := sessions w !! sessionID in
  mutex_RUnlock >>
  match entry with
  | None => ret ("", Some (Errorf ("session " +:+ sessionID +:+ " not found")))
  | Some p =>
      let* sessionClient := load p in
      if bool_decide (Status sessionClient = StatusConnected)
      then ret ("", Some (Errorf ("session " +:+ sessionID +:+ " is already connected")))
      else
        let* r := sessionRepo_GetByID sessionID in
        match r with
        | inr err => ret ("", Some (Wrapf "failed to get session from database" err))
        | inl session =>
            if bool_decide (QRCode session <> "")
            then log Info "Returning existing QR code" sessionID >>
                 ret (QRCode session, None)
            else
              go (GoHandleQRCodeGeneration sessionID p) >>
              time_Sleep 2000 >>
              let* r' := sessionRepo_GetByID sessionID in
              match r' with
              | inl session' =>
                  if bool_decide (QRCode session' <> "")
                  then log Info "QR code generated and retrieved" sessionID >>
                       ret (QRCode session', None)
                  else ret ("", Some (Errorf
                    "QR code is being generated, please try again in a few seconds"))
              | inr _ => ret ("", Some (Errorf
                    "QR code is being generated, please try again in a few seconds"))
              end
        end
  end.

(** The [select] of the worker: a value in the kill channel, or the
    context done.  With both ready the kill channel is taken. *)
Definition kill_ready (p : loc) (w : World) : bool :=
  match heap w !! p with
  | Some sc => bool_decide (KillChannel sc <> [])
  | None => false
  end.

Definition select_case (sessionID : SessionID) (p : loc) : M unit :=
  let* sessionClient := load p in
  match KillChannel sessionClient with
  | _ :: rest =>
      store p (with_KillChannel rest) >>
      log Info "Session received kill signal" sessionID
  | [] => log Info "Session context cancelled" sessionID
  end.

Definition select_kill_or_done (ctx : Context) (sessionID : SessionID)
    (p : loc) : M unit :=
  await (fun w => kill_ready p w || ctx_done ctx) (select_case sessionID p).

(** The last two statements of [handleSessionConnection], under its
    comment "Cleanup". *)
Definition handleSessionConnection_cleanup (sessionID : SessionID) (p : loc) : M unit :=
  let* sessionClient := load p in
  let* c := deref (Client sessionClient) in
  Disconnect c >>
  updateSessionStatus sessionID StatusDisconnected.

(** [handleSessionConnection], the worker's goroutine. *)
Definition handleSessionConnection (ctx : Context) (sessionID : SessionID)
    (p : loc) : M unit :=
  defer_recover
    (fun r => emit (Log Error "Panic in session connection handler" sessionID)) (
    updateSessionStatus sessionID StatusConnecting >>
    setupEventHandlers sessionID p >>
    let* sessionClient := load p in
    let* device := deref (Device sessionClient) in
    let* connected :=
      match DeviceID device with
      | None =>
          log Info "New device, QR code authentication required" sessionID >>
          handleQRCodeGeneration ctx sessionID p >>
          ret true
      | Some _ =>
          log Info "Device has stored ID, attempting direct connection" sessionID >>
          let* c := deref (Client sessionClient) in
          let* err := Connect c in
          match err with
          | Some _ =>
              log Error "Failed to connect to WhatsApp" sessionID >>
              updateSessionStatus sessionID StatusError >>
              ret false
          | None => ret true
          end
      end in
    if connected then
      select_kill_or_done ctx sessionID p >>
      handleSessionConnection_cleanup sessionID p
    else ret tt).

(** [connectOnStartup]: the loop over the sessions the store returns,
    with the count of sessions it restarts. *)
Definition startup_eligible (session : Session) : bool :=
  bool_decide (Status_ session = domain.StatusConnected)
  && bool_decide (WAJID session <> "").

Fixpoint connectOnStartup_loop (sessions : list Session) (connectedCount : Z) : M Z :=
  match sessions with
  | [] => ret connectedCount
  | session :: rest =>
      if startup_eligible session
      then
        log Info "Reconnecting session on startup" (ID session) >>
        go (GoStartSession (ID session)) >>
        time_Sleep 500 >>
        connectOnStartup_loop rest (connectedCount + 1)%Z
      else connectOnStartup_loop rest connectedCount
  end.

Definition connectOnStartup : M unit :=
  time_Sleep 2000 >>
  let* r := sessionRepo_GetConnectedSessions in
  match r with
  | inr _ => log Error "Failed to get sessions for startup reconnection" ""
  | inl sessions =>
      let* connectedCount := connectOnStartup_loop sessions 0%Z in
      if bool_decide (connectedCount > 0)%Z
      then log Info "Startup reconnection completed" ""
      else log Info "No sessions to reconnect on startup" ""
  end.

(** The goroutine started for a session by [connectOnStartup]. *)
Definition connectOnStartup_start (sessionID : SessionID) : M unit :=
  let* err := StartSession sessionID in
  match err with
  | Some _ => log Error "Failed to reconnect session on startup" sessionID
  | None => ret tt
  end.

(** The body of each goroutine. *)
Definition run (t : Task) : M unit :=
  match t with
  | GoConnectOnStartup => connectOnStartup
  | GoStartSession sessionID => connectOnStartup_start sessionID
  | GoHandleSessionConnection sessionID p =>
      handleSessionConnection Background sessionID p
  | GoHandleQRCodeGeneration sessionID p =>
      handleQRCodeGeneration Background sessionID p
  | GoUpdateStatus sessionID status => updateSessionStatus_write sessionID status
  end.

(** [NewMultiSessionManager]: an empty registry with the default limit,
    and the startup goroutine. *)
Definition NewMultiSessionManager (sessionRepo : R) (now : Z) : World :=
  mkWorld ∅ ∅ 0 50 sessionRepo now [Go GoConnectOnStartup].

(** *** Reading a trace *)

Definition spawned (tr : list Action) : list Task :=
  omap (fun a => match a with Go t => Some t | _ => None end) tr.

Definition is_blocking_call (a : Action) : bool :=
  match a with
  | CallGetByID _ | CallUpdateStatus _ _ | CallSetWAJID _ _ | CallSetQRCode _ _
  | CallGetConnectedSessions | CallGetOrCreateDevice _ _
  | CallGetQRChannel _ | CallConnect _ | CallDisconnect _ => true
  | _ => false
  end.

Definition is_connect_call (a : Action) : bool :=
  match a with
  | CallConnect _ | CallGetQRChannel _ => true
  | _ => false
  end.

Definition is_lock_op (a : Action) : bool :=
  match a with
  | Lock | Unlock | RLock | RUnlock => true
  | _ => false
  end.

(** The blocking calls a goroutine makes while it holds the mutex, given
    whether it holds it at the start of the trace. *)
Fixpoint calls_under_lock (held : bool) (tr : list Action) : list Action :=
  match tr with
  | [] => []
  | Lock :: tr' | RLock :: tr' => calls_under_lock true tr'
  | Unlock :: tr' | RUnlock :: tr' => calls_under_lock false tr'
  | a :: tr' =>
      if held && is_blocking_call a
      then a :: calls_under_lock held tr'
      else calls_under_lock held tr'
  end.

(** *** Notions used in the statements *)

(** The sessions the durable store returns to the resumer. *)
Definition returned_sessions (w : World) : list Session :=
  match GetConnectedSessions (sessionRepo w) with
  | inl l => l
  | inr _ => []
  end.

(** A run that ends (with a value or a panic) without parking, having
    appended to the trace only actions that satisfy [ok]. *)
Definition emits_only {A} (ok : Action -> bool) (w : World) (r : Res A) : Prop :=
  match r with
  | Done _ w' | Panicked _ w' =>
      exists new, trace w' = trace w ++ new /\ forallb ok new = true
  | Blocked _ _ _ => False
  end.

(** Neither a lock operation nor a connect of the client. *)
Definition no_lock_no_connect (a : Action) : bool :=
  negb (is_lock_op a) && negb (is_connect_call a).

(** Neither a lock operation nor a blocking call. *)
Definition no_lock_no_blocking (a : Action) : bool :=
  negb (is_lock_op a) && negb (is_blocking_call a).

(** *** The other methods of [MultiSessionManager] *)

(** [GetClient]: the client of a registered session, whatever its
    status. *)
Definition GetClient (sessionID : SessionID)
    : M (option whatsmeow_Client * option error) :=
  mutex_RLock >>
  defer mutex_RUnlock_deferred (
    let* w := get in
    match sessions w !! sessionID with
    | None => ret (None, Some (Errorf ("session not found: " +:+ sessionID)))
    | Some p =>
        let* sessionClient := load p in
        match Client sessionClient with
        | None =>
            ret (None, Some (Errorf ("session client not initialized: "
                                       +:+ sessionID)))
        | Some c => ret (Some c, None)
        end
    end).

(** [GetSessionClient]: the client of a session that is connected. *)
Definition GetSessionClient (sessionID : SessionID)
    : M (option whatsmeow_Client * bool) :=
  mutex_RLock >>
  defer mutex_RUnlock_deferred (
    let* w := get in
    match sessions w !! sessionID with
    | Some p =>
        let* sessionClient := load p in
        if bool_decide (Status sessionClient = StatusConnected)
        then ret (Client sessionClient, true)
        else ret (None, false)
    | None => ret (None, false)
    end).

(** [GetActiveSessions]: the loop over the map, in the order the map
    yields its entries (unspecified in Go; here the order of
    [map_to_list]). *)
Fixpoint GetActiveSessions_range (entries : list (SessionID * loc))
    (activeSessions : list SessionID) : M (list SessionID) :=
  match entries with
  | [] => ret activeSessions
  | (sessionID, p) :: rest =>
      let* client := load p in
      if bool_decide (Status client = StatusConnected)
      then GetActiveSessions_range rest (activeSessions ++ [sessionID])
      else GetActiveSessions_range rest activeSessions
  end.

Definition GetActiveSessions : M (list SessionID) :=
  mutex_RLock >>
  defer mutex_RUnlock_deferred (
    let* w := get in
    GetActiveSessions_range (map_to_list (sessions w)) []).

(** [Shutdown]: the loop over the keys of the map.  Each turn removes
    the key it is at, so every key the map held at the start is
    visited. *)
Fixpoint Shutdown_range (keys : list SessionID) : M unit :=
  match keys with
  | [] => ret tt
  | sessionID :: rest =>
      let* err := cleanupSessionUnsafe sessionID in
      match err with
      | Some _ => log Error "Error cleaning up session during shutdown" sessionID
      | None => ret tt
      end >>
      Shutdown_range rest
  end.

Definition Shutdown : M (option error) :=
  mutex_Lock >>
  defer mutex_Unlock (
    log Info "Shutting down all sessions" "" >>
    let* w := get in
    Shutdown_range ((map_to_list (sessions w)).*1) >>
    ret None).

(** The Workers of [w'] are those of [w] with the same clients:
    only their kill channels, statuses and times may differ. *)
Definition same_clients (w w' : World) : Prop :=
  forall p, Client <$> heap w' !! p = Client <$> heap w !! p.

(** A session of the registry whose Worker is connected. *)
Definition is_active (w : World) (entry : SessionID * loc) : bool :=
  match heap w !! entry.2 with
  | Some client => bool_decide (Status client = StatusConnected)
  | None => false
  end.

(** Every pointer in the registry map points to a Worker. *)
Definition registry_wf (w : World) : Prop :=
  forall sessionID p, sessions w !! sessionID = Some p -> is_Some (heap w !! p).

End Manager.

Arguments Done {R A} a w.
Arguments Panicked {R A} v w.
Arguments Blocked {R A} ready k w.

End services.

(** ** Package services: the device store manager *)

Module storemanager.
Import domain services.

(** The [sqlstore.Container] behind the manager and the JID parser:
    [container_GetDevice] returns no device and no error for a JID that
    has no stored device. *)
Record Container : Type := mkContainer {
  types_ParseJID : string -> string + error;
  container_GetDevice : string -> option store_Device + error;
  container_NewDevice : store_Device
}.

Inductive StoreLog : Type :=
  | LogDebug (msg : string) (sessionID : SessionID)
  | LogInfo (msg : string) (sessionID : SessionID)
  | LogWarn (msg : string) (sessionID : SessionID).

(** [WhatsAppStoreManager]: the cache of devices by session and its
    limit. *)
Record WhatsAppStoreManager : Type := mkStoreManager {
  container : Container;
  devices : gmap SessionID store_Device;
  maxDevices : Z;
  logged : list StoreLog
}.

Definition add_log (l : StoreLog) (wsm : WhatsAppStoreManager) : WhatsAppStoreManager :=
  mkStoreManager (container wsm) (devices wsm) (maxDevices wsm) (logged wsm ++ [l]).

Definition set_devices (f : gmap SessionID store_Device -> gmap SessionID store_Device)
    (wsm : WhatsAppStoreManager) : WhatsAppStoreManager :=
  mkStoreManager (container wsm) (f (devices wsm)) (maxDevices wsm) (logged wsm).

(** [NewWhatsAppStoreManager], once the schema of the container has been
    upgraded: an empty cache with the default limit. *)
Definition NewWhatsAppStoreManager (c : Container) : WhatsAppStoreManager :=
  mkStoreManager c ∅ 100 [LogInfo "WhatsApp store manager initialized successfully" ""].

Definition restoreDevice (wsm : WhatsAppStoreManager) (jid : string)
    : option store_Device + error :=
  match types_ParseJID (container wsm) jid with
  | inr err => inr (Wrapf ("failed to parse JID " +:+ jid) err)
  | inl parsedJID =>
      match container_GetDevice (container wsm) parsedJID with
      | inr err => inr (Wrapf ("failed to get device for JID " +:+ jid) err)
      | inl device => inl device
      end
  end.

Definition GetOrCreateDevice (wsm : WhatsAppStoreManager)
    (sessionID : SessionID) (jid : string)
    : (store_Device + error) * WhatsAppStoreManager :=
  match devices wsm !! sessionID with
  | Some device =>
      (inl device, add_log (LogDebug "Device found in cache" sessionID) wsm)
  | None =>
      if bool_decide (Z.of_nat (size (devices wsm)) >= maxDevices wsm)%Z
      then (inr (Errorf ("maximum number of devices ("
                           +:+ pretty (maxDevices wsm) +:+ ") reached")), wsm)
      else
        let '(device, wsm1) :=
          if bool_decide (jid <> "") then
            match restoreDevice wsm jid with
            | inl device => (device, wsm)
            | inr _ =>
                (None,
                 add_log (LogWarn "Failed to restore device, creating new one"
                            sessionID) wsm)
            end
          else (None, wsm) in
        match device with
        | None =>
            let device := container_NewDevice (container wsm) in
            (inl device,
             set_devices <[sessionID := device]>
               (add_log (LogInfo "Created new WhatsApp device" sessionID) wsm1))
        | Some device =>
            (inl device,
             set_devices <[sessionID := device]>
               (add_log (LogInfo "Restored existing WhatsApp device" sessionID)
                  wsm1))
        end
  end.

Definition GetDevice (wsm : WhatsAppStoreManager) (sessionID : SessionID)
    : option store_Device * bool :=
  match devices wsm !! sessionID with
  | Some device => (Some device, true)
  | None => (None, false)
  end.

Definition RemoveDevice (wsm : WhatsAppStoreManager) (sessionID : SessionID)
    : WhatsAppStoreManager :=
  match devices wsm !! sessionID with
  | Some _ =>
      add_log (LogDebug "Device removed from cache" sessionID)
        (set_devices (delete sessionID) wsm)
  | None => wsm
  end.

(** The size of the cache is within the limit of the manager. *)
Definition within_limit (wsm : WhatsAppStoreManager) : Prop :=
  (Z.of_nat (size (devices wsm)) <= maxDevices wsm)%Z.

End storemanager.

(** ** Package handlers: the HTTP handlers that call the manager *)

Module handlers.
Import domain services.

(** What a handler writes to the [http.ResponseWriter]: the status code
    and either the text of [http.Error] or the fields of the JSON
    object. *)
Inductive Body : Type :=
  | Text (msg : string)
  | JSON (fields : list (string * string)).

Record Response : Type := mkResponse {
  StatusCode : Z;
  ResponseBody : Body
}.

Definition http_Error (msg : string) (code : Z) : Response :=
  mkResponse code (Text msg).

(** [types.JID]. *)
Record JID : Type := mkJID {
  User : string;
  Server : string
}.

Definition is_digit (char : Ascii.ascii) : bool :=
  (48 <=? Ascii.nat_of_ascii char) && (Ascii.nat_of_ascii char <=? 57).

(** The loop of [parsePhoneToJID] over the runes of the phone number.
    A digit is a one-byte rune and no byte of a longer rune (or of an
    invalid sequence) is in the range of the digits, so the loop keeps
    exactly the bytes that are digits. *)
Fixpoint cleanPhone (phone : string) : string :=
  match phone with
  | String.EmptyString => String.EmptyString
  | String.String char rest =>
      if is_digit char then String.String char (cleanPhone rest)
      else cleanPhone rest
  end.

(** Every character of the string is a digit. *)
Fixpoint all_digits (s : string) : bool :=
  match s with
  | String.EmptyString => true
  | String.String char rest => is_digit char && all_digits rest
  end.

Definition parsePhoneToJID (phone : string) : JID + error :=
  if String.length (cleanPhone phone) <? 10
  then inr (Errorf ("phone number too short: " +:+ phone))
  else inl (mkJID (cleanPhone phone) "s.whatsapp.net").

Section Handlers.
Context {R : Type} `{!Repository R}.
Variable ext : External.

(** [uuid.Parse] succeeds. *)
Variable uuid_Parse : string -> bool.

(** [Repository.Update], a method of the interface the manager itself
    does not call. *)
Variable sessionRepo_Update : R -> Session -> R * option error.

Notation "'let*' x ':=' m 'in' k" := (bind m (fun x => k))
  (at level 10, x name, m at level 100, k at level 200).
Notation "m >> k" := (bind m (fun _ => k))
  (at level 100, k at level 200, right associativity).

(** [SessionID.IsValid]. *)
Definition SessionID_IsValid (id : SessionID) : bool :=
  if bool_decide (id = "") then false else uuid_Parse id.

(** [ConnectSession], POST /sessions/{sessionID}/connect.  The type
    switch on the error looks at the error value itself, not at what it
    wraps; no error of the manager is a [*domain.BusinessError], the case
    that answers 409. *)
Definition ConnectSession (sessionIDStr : string) : M Response :=
  if negb (SessionID_IsValid sessionIDStr)
  then ret (http_Error "Invalid session ID" 400)
  else
    log Info "Session connection requested" sessionIDStr >>
    let* err := StartSession ext sessionIDStr in
    match err with
    | Some e =>
        log Error "Failed to start session" sessionIDStr >>
        match e with
        | NotFoundError _ _ => ret (http_Error "Session not found" 404)
        | _ => ret (http_Error "Failed to connect session" 500)
        end
    | None =>
        let* status := GetSessionStatus sessionIDStr in
        log Info "Session connection initiated" sessionIDStr >>
        ret (mkResponse 200
               (JSON [("session_id", sessionIDStr);
                      ("status", status);
                      ("message", "Session connection initiated successfully")]))
    end.

(** The session [LogoutSession] writes back: disconnected, with no QR
    code. *)
Definition logged_out (session : Session) : Session :=
  mkSession (ID session) (Name session) domain.StatusDisconnected
    (WebhookURL session) (WAJID session) "" (Events session)
    (ProxyURL session) (DeviceName session) (IsActive session)
    (CreatedAt session) (UpdatedAt session) (LastConnectedAt session).

Definition sessionRepo_Update_call (session : Session) : M (option error) :=
  let* w := get in
  let '(r, err) := sessionRepo_Update (sessionRepo w) session in
  modify (set_sessionRepo r) >> ret err.

(** [LogoutSession], POST /sessions/{sessionID}/logout. *)
Definition LogoutSession (sessionIDStr : string) : M Response :=
  if negb (SessionID_IsValid sessionIDStr)
  then ret (http_Error "Invalid session ID" 400)
  else
    log Info "Session logout requested" sessionIDStr >>
    let* err := StopSession sessionIDStr in
    match err with
    | Some e =>
        log Error "Failed to stop session" sessionIDStr >>
        match e with
        | NotFoundError _ _ => ret (http_Error "Session not found" 404)
        | _ => ret (http_Error "Failed to logout session" 500)
        end
    | None =>
        let* r := sessionRepo_GetByID sessionIDStr in
        match r with
        | inl session =>
            let* updateErr := sessionRepo_Update_call (logged_out session) in
            match updateErr with
            | Some _ =>
                log Error "Failed to update session status in database"
                  sessionIDStr
            | None => ret tt
            end
        | inr _ => ret tt
        end >>
        log Info "Session logged out successfully" sessionIDStr >>
        ret (mkResponse 200
               (JSON [("session_id", sessionIDStr);
                      ("status", "disconnected");
                      ("message", "Session logged out successfully")]))
    end.

End Handlers.

End handlers.

(** ** Concrete stores, collaborators and registries *)

Module scenarios.
Import domain repository services.

Definition row (id st jid qr : string) (created : Z) : Session :=
  mkSession id id st "" jid qr "" "" "WazMeow" true created created None.

(** A store with a paired session last seen connected, a session that
    was never paired, and a session in the middle of pairing. *)
Definition store_abc : sessionRepository :=
  mkRepo [row "a" "connected" "999@ext" "" 1;
          row "b" "disconnected" "" "" 2;
          row "c" "connecting" "" "data:image/png;base64,QUJD" 3]
         None 100.

Definition store_down : sessionRepository :=
  mkRepo (rows store_abc) (Some "connection refused") 100.

(** Collaborators: the device store hands out a device that is paired
    exactly when the session has an identity; the QR channel delivers a
    code and then times out. *)
Definition collaborators (connect : ConnectResult) : External :=
  mkExternal
    (fun _ jid => inl (mkDevice (if bool_decide (jid = "") then None else Some jid) "" ""))
    (fun _ => connect)
    (fun _ => inl [mkQRItem "code" "2@abc"; mkQRItem "timeout" ""])
    (fun code => inl code)
    (fun image => image).

Definition ext_ok : External := collaborators ConnectOk.

Definition paired_device : store_Device := mkDevice (Some "999@ext") "" "".
Definition new_device : store_Device := mkDevice None "" "".

Definition worker (dev : store_Device) (st : ConnectionStatus) : SessionClient :=
  mkSessionClient (Some 0) (Some dev) [] st 5.

(** A registry with one Worker for ["a"] at address 0, in the given
    status, over the given store. *)
Definition registry_a {R : Type} (repo : R) (st : ConnectionStatus) : @World R :=
  mkWorld {[ "a" := 0 ]} {[ 0 := worker paired_device st ]} 1 50 repo 10 [].

(** A registry with one Worker for ["c"], a new device in the middle of
    pairing. *)
Definition registry_c : @World sessionRepository :=
  mkWorld {[ "c" := 0 ]} {[ 0 := worker new_device "connecting" ]} 1 50 store_abc 10 [].

(** A registry at its limit of 50 Workers, for the IDs ["0"] to ["49"]. *)
Definition full_registry : @World sessionRepository :=
  mkWorld (list_to_map ((fun n => (pretty n, n)) <$> seq 0 50))
          (list_to_map ((fun n => (n, worker paired_device "connected")) <$> seq 0 50))
          50 50 store_abc 10 [].

Definition empty_registry : @World sessionRepository :=
  mkWorld ∅ ∅ 0 50 store_abc 10 [].

(** A registry with one Worker for ["b"], a new device whose pairing has
    not produced a code yet, and collaborators whose QR channel has
    delivered one code so far. *)
Definition registry_b : @World sessionRepository :=
  mkWorld {[ "b" := 0 ]} {[ 0 := worker new_device "connecting" ]} 1 50 store_abc 10 [].

Definition ext_one_code : External :=
  mkExternal
    (fun _ _ => inl new_device)
    (fun _ => ConnectOk)
    (fun _ => inl [mkQRItem "code" "2@abc"])
    (fun code => inl code)
    (fun image => image).

(** The QR code the store holds for a session. *)
Definition stored_QRCode (r : sessionRepository) (id : SessionID) : option string :=
  match domain.GetByID r id with
  | inl session => Some (QRCode session)
  | inr _ => None
  end.

(** A registry with a connected Worker for ["a"] and a Worker for ["b"]
    in the middle of pairing. *)
Definition registry_ab : @World sessionRepository :=
  mkWorld {[ "a" := 0; "b" := 1 ]}
          {[ 0 := worker paired_device "connected";
             1 := mkSessionClient (Some 1) (Some new_device) [] "connecting" 5 ]}
          2 50 store_abc 10 [].

(** A container that has one stored device, for the JID ["999@ext"], and
    whose parser refuses the JID ["bad"]. *)
Definition container_one : storemanager.Container :=
  storemanager.mkContainer
    (fun jid => if bool_decide (jid = "bad")
                then inr (ExternalError "invalid JID") else inl jid)
    (fun jid => inl (if bool_decide (jid = "999@ext")
                     then Some paired_device else None))
    new_device.

(** A device cache at its limit of one device. *)
Definition store_manager_a : storemanager.WhatsAppStoreManager :=
  storemanager.mkStoreManager container_one {[ "a" := paired_device ]} 1 [].

End scenarios.

(** * Properties of the orchestrator *)

Import domain services.

Section Registry.
Context {R : Type} `{!Repository R}.
Variable ext : External.

Abbreviation world := (@World R).

(** Runs a method symbolically: the primitives of the monad are unfolded
    and the world projections reduced. *)
Ltac unfold_monad :=
  unfold mutex_Lock, mutex_RLock, mutex_RUnlock, mutex_Unlock,
    mutex_RUnlock_deferred, log, go, do, time_Now, store, new, load, deref,
    defer, defer_recover, await, modify, get, ret, panic, bind in *.

Ltac run_monad := unfold_monad; cbn.

(** Reads and writes of the heap at one address. *)
Ltac heap_simpl :=
  repeat (progress (rewrite ?lookup_insert_eq, ?insert_insert_eq; cbn)).

(** C10. For a session ID with no Worker in the registry map,
    [GetSessionStatus] returns the status "disconnected" (a value, never an
    error or a panic), which is also what it returns for a registered
    Worker whose status is "disconnected": the two cases cannot be told
    apart through this method. *)
Theorem GetSessionStatus_unregistered (w : world) (sessionID : SessionID) :
  sessions w !! sessionID = None ->
  res_value (GetSessionStatus sessionID w) = Some "disconnected"
  /\ forall (w' : world) p sc,
       sessions w' !! sessionID = Some p ->
       heap w' !! p = Some sc ->
       Status sc = StatusDisconnected ->
       res_value (GetSessionStatus sessionID w')
       = res_value (GetSessionStatus sessionID w).
Proof.
  intros Hnone. unfold GetSessionStatus. split.
  - run_monad. rewrite Hnone. reflexivity.
  - intros w' p sc Hp Hsc Hst. run_monad.
    rewrite Hnone, Hp. cbn. rewrite Hsc. cbn. rewrite Hst. reflexivity.
Qed.

(** C9. For a session ID with no registered Worker, [StopSession] returns
    nil, and the registry map, the Workers and the started goroutines are
    what they were. *)
Theorem StopSession_unregistered (w : world) (sessionID : SessionID) :
  sessions w !! sessionID = None ->
  exists w', StopSession sessionID w = Done None w'
    /\ sessions w' = sessions w
    /\ heap w' = heap w
    /\ spawned (trace w') = spawned (trace w).
Proof.
  intros Hnone. unfold StopSession, cleanupSessionUnsafe. run_monad.
  rewrite Hnone. cbn. eexists; split; [reflexivity|]. cbn.
  unfold spawned. rewrite !omap_app. cbn. rewrite !app_nil_r. auto.
Qed.

(** C1. When a Worker is registered for the session ID and its status is
    "connected", [StartSession] returns nil; the registry map and the
    Workers are unchanged, no client is created and no goroutine is
    started. *)
Theorem StartSession_connected_noop (w : world) (sessionID : SessionID)
    (p : loc) (sc : SessionClient) :
  sessions w !! sessionID = Some p ->
  heap w !! p = Some sc ->
  Status sc = "connected" ->
  exists w', StartSession ext sessionID w = Done None w'
    /\ sessions w' = sessions w
    /\ heap w' = heap w
    /\ next_client w' = next_client w
    /\ spawned (trace w') = spawned (trace w).
Proof.
  intros Hp Hsc Hst. unfold StartSession. run_monad.
  rewrite Hp. cbn. rewrite Hsc. cbn. rewrite Hst. cbn.
  eexists; split; [reflexivity|]. cbn.
  unfold spawned. rewrite !omap_app. cbn. rewrite !app_nil_r. auto.
Qed.

(** C2. When no Worker is registered for the session ID and the number of
    registered Workers equals the configured maximum, [StartSession]
    returns the capacity error; the registry map and the Workers are
    unchanged, no goroutine is started and [GetSessionCount] returns what
    it returned before.  The maximum set by [NewMultiSessionManager] is
    50. *)
Theorem StartSession_at_capacity (w : world) (sessionID : SessionID) :
  sessions w !! sessionID = None ->
  Z.of_nat (size (sessions w)) = maxSessions w ->
  (exists w', StartSession ext sessionID w
              = Done (Some (MaxSessionsError (maxSessions w))) w'
    /\ sessions w' = sessions w
    /\ heap w' = heap w
    /\ spawned (trace w') = spawned (trace w)
    /\ res_value (GetSessionCount w') = res_value (GetSessionCount w))
  /\ forall (r : R) now, maxSessions (NewMultiSessionManager r now) = 50%Z.
Proof.
  intros Hnone Hfull. split; [|reflexivity].
  unfold StartSession, StartSession_register. run_monad.
  rewrite Hnone. cbn. rewrite bool_decide_true by lia. cbn.
  eexists; split; [reflexivity|]. cbn.
  unfold spawned. rewrite !omap_app. cbn. rewrite !app_nil_r.
  repeat split; auto.
Qed.

(** *** Driving a parked goroutine *)

Lemma drive_Done {A} (n : nat) (a : A) (w : world) :
  drive n (Done a w) = Done a w.
Proof. destruct n; reflexivity. Qed.

Lemma spawned_app (tr tr' : list Action) :
  spawned (tr ++ tr') = spawned tr ++ spawned tr'.
Proof. apply omap_app. Qed.

Lemma startup_eligible_spec (s : Session) :
  startup_eligible s = true <-> Status_ s = "connected" /\ WAJID s <> "".
Proof.
  unfold startup_eligible. rewrite andb_true_iff, !bool_decide_eq_true.
  reflexivity.
Qed.

(** The loop of [connectOnStartup] run to its end: it starts one
    goroutine for each eligible session, in order, and nothing else. *)
Lemma connectOnStartup_loop_drive (l : list Session) :
  forall (n : Z) (w : world) (k : Z -> M unit) (fuel : nat),
  exists (w' : world) (n' : Z) (fuel' : nat),
    fuel <= fuel'
    /\ drive (length l + fuel) (bind_res (connectOnStartup_loop l n w) k)
       = drive fuel' (k n' w')
    /\ spawned (trace w')
       = spawned (trace w)
         ++ ((fun s => GoStartSession (ID s))
               <$> filter (fun s => Status_ s = "connected" /\ WAJID s <> "") l)
    /\ sessions w' = sessions w /\ heap w' = heap w
    /\ sessionRepo w' = sessionRepo w.
Proof.
  induction l as [|s rest IH]; intros n w k fuel.
  - exists w, n, fuel. cbn. rewrite app_nil_r. repeat split; reflexivity.
  - cbn [connectOnStartup_loop]. destruct (startup_eligible s) eqn:E.
    + apply startup_eligible_spec in E.
      rewrite filter_cons_True by exact E.
      unfold time_Sleep. run_monad.
      destruct (IH (n + 1)%Z
                  (set_clock (Z.max (clock w) (clock w + 500))
                     (emit (Sleep 500)
                        (emit (Go (GoStartSession (ID s)))
                           (emit (Log Info "Reconnecting session on startup" (ID s)) w))))
                  k fuel)
        as (w' & n' & fuel' & Hle & Hrun & Hsp & Hs & Hh & Hr).
      exists w', n', fuel'. split; [exact Hle|]. split; [exact Hrun|].
      rewrite Hsp. cbn. rewrite !spawned_app. cbn.
      rewrite !app_nil_r, <- app_assoc. repeat split; assumption || reflexivity.
    + assert (~ (Status_ s = "connected" /\ WAJID s <> "")) as Hn.
      { rewrite <- startup_eligible_spec. congruence. }
      rewrite filter_cons_False by exact Hn.
      destruct (IH n w k (S fuel)) as (w' & n' & fuel' & Hle & Hrun & Hrest).
      exists w', n', fuel'. split; [lia|]. split; [|exact Hrest].
      rewrite <- Hrun. f_equal. cbn. lia.
Qed.

(** The resumer run to its end: the goroutines it has started. *)
Lemma connectOnStartup_spawns (w : world) :
  exists w',
    drive (S (length (returned_sessions w))) (connectOnStartup w) = Done tt w'
    /\ spawned (trace w')
       = spawned (trace w)
         ++ ((fun s => GoStartSession (ID s))
               <$> filter (fun s => Status_ s = "connected" /\ WAJID s <> "")
                     (returned_sessions w))
    /\ sessions w' = sessions w /\ heap w' = heap w.
Proof.
  unfold connectOnStartup, returned_sessions, time_Sleep,
    sessionRepo_GetConnectedSessions.
  run_monad.
  destruct (GetConnectedSessions (sessionRepo w)) as [l|err] eqn:Hq.
  - match goal with
    | |- context [bind_res (connectOnStartup_loop l 0%Z ?w0) ?k] =>
        destruct (connectOnStartup_loop_drive l 0%Z w0 k 0)
          as (w' & n' & fuel' & _ & Hrun & Hsp & Hs & Hh & _)
    end.
    rewrite Nat.add_0_r in Hrun. rewrite Hrun.
    cbn in Hsp. rewrite !spawned_app in Hsp. cbn in Hsp.
    rewrite !app_nil_r in Hsp. cbn in Hs, Hh.
    destruct (bool_decide (n' > 0)%Z); rewrite drive_Done;
      (eexists; split; [reflexivity|]); cbn;
      rewrite spawned_app, Hsp; cbn; rewrite app_nil_r; auto.
  - cbn. eexists; split; [reflexivity|]. cbn.
    rewrite !spawned_app. cbn. rewrite !app_nil_r. auto.
Qed.

(** [StartSession] does not park: it ends with a result or a panic. *)
Lemma StartSession_register_not_blocked (w : world) (sessionID : SessionID) :
  forall ready k w', StartSession_register ext sessionID w <> Blocked ready k w'.
Proof.
  intros ready k w'.
  unfold StartSession_register, sessionRepo_GetByID, GetOrCreateDevice,
    whatsmeow_NewClient.
  run_monad. case_bool_decide; cbn; [discriminate|].
  destruct (GetByID (sessionRepo w) sessionID) as [session|err]; cbn;
    [|discriminate].
  destruct (storeManager_GetOrCreateDevice ext sessionID (WAJID session));
    cbn; discriminate.
Qed.

Lemma cleanupSessionUnsafe_not_blocked (w : world) (sessionID : SessionID) :
  forall ready k w', cleanupSessionUnsafe sessionID w <> Blocked ready k w'.
Proof.
  intros ready k w'. unfold cleanupSessionUnsafe, Disconnect. run_monad.
  destruct (sessions w !! sessionID) as [p|]; cbn; [|discriminate].
  destruct (heap w !! p) as [sc|] eqn:Hsc; cbn; [|discriminate].
  case_bool_decide; cbn; rewrite ?Hsc; cbn;
    destruct (Client sc); cbn; discriminate.
Qed.

Lemma StartSession_not_blocked (w : world) (sessionID : SessionID) :
  forall ready k w', StartSession ext sessionID w <> Blocked ready k w'.
Proof.
  intros ready k w'. unfold StartSession. unfold_monad.
  cbn -[cleanupSessionUnsafe StartSession_register].
  destruct (sessions w !! sessionID) as [p|];
    cbn -[cleanupSessionUnsafe StartSession_register].
  - destruct (heap w !! p) as [sc|];
      cbn -[cleanupSessionUnsafe StartSession_register]; [|discriminate].
    case_bool_decide; cbn -[cleanupSessionUnsafe StartSession_register];
      [discriminate|].
    destruct (cleanupSessionUnsafe sessionID (emit Lock w))
      as [a w1|v w1|ready1 k1 w1] eqn:Hclean;
      cbn -[cleanupSessionUnsafe StartSession_register]; [|discriminate|].
    + destruct (StartSession_register ext sessionID w1)
        as [a2 w2|v2 w2|ready2 k2 w2] eqn:Hreg; cbn; try discriminate.
      exfalso. exact (StartSession_register_not_blocked _ _ _ _ _ Hreg).
    + exfalso. exact (cleanupSessionUnsafe_not_blocked _ _ _ _ _ Hclean).
  - destruct (StartSession_register ext sessionID (emit Lock w))
      as [a2 w2|v2 w2|ready2 k2 w2] eqn:Hreg; cbn; try discriminate.
    exfalso. exact (StartSession_register_not_blocked _ _ _ _ _ Hreg).
Qed.

(** C6. The startup resumer, run to its end, passes to [StartSession]
    (each call in a goroutine of its own) exactly the sessions the store
    returned whose status is "connected" and whose WAJID is not empty,
    once each and in the order returned: every such session is started,
    and every session started is such a session, so that a returned
    session with another status or an empty WAJID is never passed to
    [StartSession].  The goroutine started for a session is a call of
    [StartSession] on that session's ID, in whatever world it runs: it
    ends as that call ends, with one more log line when the call returns
    an error.  The resumer itself leaves the registry as it is. *)
Theorem connectOnStartup_starts_eligible (w : world) :
  (exists w' started,
     drive (S (length (returned_sessions w))) (connectOnStartup w) = Done tt w'
     /\ spawned (trace w') = spawned (trace w) ++ (GoStartSession <$> started)
     /\ started
        = ID <$> filter (fun s => Status_ s = "connected" /\ WAJID s <> "")
                   (returned_sessions w)
     /\ (forall s, s ∈ returned_sessions w ->
           Status_ s = "connected" -> WAJID s <> "" -> ID s ∈ started)
     /\ (forall id, id ∈ started ->
           exists s, s ∈ returned_sessions w /\ ID s = id
                     /\ Status_ s = "connected" /\ WAJID s <> "")
     /\ sessions w' = sessions w /\ heap w' = heap w)
  /\ forall (sessionID : SessionID) (w1 : world),
       match StartSession ext sessionID w1 with
       | Done None w2 => run ext (GoStartSession sessionID) w1 = Done tt w2
       | Done (Some _) w2 =>
           run ext (GoStartSession sessionID) w1
           = Done tt (emit (Log Error "Failed to reconnect session on startup"
                              sessionID) w2)
       | Panicked v w2 =>
           run ext (GoStartSession sessionID) w1 = Panicked v w2
       | Blocked _ _ _ => False
       end.
Proof.
  split.
  - destruct (connectOnStartup_spawns w) as (w' & Hrun & Hsp & Hs & Hh).
    exists w', (ID <$> filter (fun s => Status_ s = "connected" /\ WAJID s <> "")
                        (returned_sessions w)).
    split; [exact Hrun|]. split.
    + rewrite Hsp, <- list_fmap_compose. reflexivity.
    + split; [reflexivity|]. split; [|split; [|split; assumption]].
      * intros s Hin Hst Hjid. apply list_elem_of_fmap. exists s.
        split; [reflexivity|]. apply list_elem_of_filter. auto.
      * intros id Hin. apply list_elem_of_fmap in Hin as (s & -> & Hs').
        apply list_elem_of_filter in Hs' as [[Hst Hjid] Hs']. eauto.
  - intros sessionID w1.
    change (run ext (GoStartSession sessionID) w1)
      with (bind_res (StartSession ext sessionID w1)
              (fun err =>
                 match err with
                 | Some _ =>
                     log Error "Failed to reconnect session on startup" sessionID
                 | None => ret tt
                 end)).
    destruct (StartSession ext sessionID w1) as [[e|] w2|v w2|ready k w2]
      eqn:Hstart; cbn; try reflexivity.
    exact (StartSession_not_blocked _ _ _ _ _ Hstart).
Qed.

(** C7 (amended). A status transition is applied to the Worker that is
    registered under the session ID: its in-memory status and
    last-activity time are set at once and the write to the durable store
    is left to a goroutine of its own.  That goroutine, in whatever world
    it runs and whatever the store answers, ends normally, leaves the
    registry and the Workers as they are, and only logs the store's
    answer.  When no Worker is registered under the session ID, the
    transition is dropped: the lock is taken and released, no status and
    no time is set, and no write is started. *)
Theorem updateSessionStatus_memory_first (w : world) (sessionID : SessionID)
    (status : ConnectionStatus) :
  (forall p sc,
     sessions w !! sessionID = Some p ->
     heap w !! p = Some sc ->
     exists w1, updateSessionStatus sessionID status w = Done tt w1
       /\ heap w1 = <[p := with_LastSeen (clock w) (with_Status status sc)]> (heap w)
       /\ sessions w1 = sessions w
       /\ sessionRepo w1 = sessionRepo w
       /\ spawned (trace w1) = spawned (trace w) ++ [GoUpdateStatus sessionID status])
  /\ (sessions w !! sessionID = None ->
      updateSessionStatus sessionID status w = Done tt (emit Unlock (emit Lock w)))
  /\ forall w2 : world,
       exists w3, run ext (GoUpdateStatus sessionID status) w2 = Done tt w3
         /\ sessions w3 = sessions w2
         /\ heap w3 = heap w2
         /\ trace w3
            = trace w2
              ++ [CallUpdateStatus sessionID (toDomainStatus status);
                  match snd (UpdateStatus (sessionRepo w2) sessionID
                               (toDomainStatus status)) with
                  | Some _ =>
                      Log Error "Failed to update session status in database" sessionID
                  | None =>
                      Log Info "Session status updated in database" sessionID
                  end].
Proof.
  split; [|split].
  - intros p sc Hp Hsc.
    unfold updateSessionStatus. run_monad. rewrite Hp. cbn. rewrite Hsc. cbn.
    rewrite lookup_insert_eq. cbn.
    eexists; split; [reflexivity|]. cbn.
    rewrite insert_insert_eq, !spawned_app. cbn. rewrite !app_nil_r.
    repeat split; reflexivity.
  - intros Hnone. unfold updateSessionStatus. run_monad. rewrite Hnone.
    reflexivity.
  - intros w2. unfold run, updateSessionStatus_write, sessionRepo_UpdateStatus,
      sessionRepo_write.
    run_monad.
    destruct (UpdateStatus (sessionRepo w2) sessionID (toDomainStatus status))
      as [r [err|]]; cbn;
      (eexists; split; [reflexivity|]); cbn; rewrite <- app_assoc;
      repeat split; reflexivity.
Qed.

(** C5. For a registered Worker that is not connected and a store that
    holds a non-empty QR code for the session, [GenerateQRCode] returns
    the stored code; it starts no pairing goroutine and calls neither the
    client nor a store write, so the store is unchanged and a second
    request returns the same code, again without starting anything. *)
Theorem GenerateQRCode_cached (w : world) (sessionID : SessionID)
    (p : loc) (sc : SessionClient) (session : Session) :
  sessions w !! sessionID = Some p ->
  heap w !! p = Some sc ->
  Status sc <> "connected" ->
  GetByID (sessionRepo w) sessionID = inl session ->
  QRCode session <> "" ->
  exists w1 w2,
    GenerateQRCode sessionID w = Done (QRCode session, None) w1
    /\ GenerateQRCode sessionID w1 = Done (QRCode session, None) w2
    /\ sessionRepo w2 = sessionRepo w
    /\ spawned (trace w2) = spawned (trace w)
    /\ trace w2
       = trace w
         ++ [RLock; RUnlock; CallGetByID sessionID;
             Log Info "Returning existing QR code" sessionID;
             RLock; RUnlock; CallGetByID sessionID;
             Log Info "Returning existing QR code" sessionID].
Proof.
  intros Hp Hsc Hst Hrow Hqr.
  assert (forall w0 : world,
            sessions w0 = sessions w -> heap w0 = heap w ->
            sessionRepo w0 = sessionRepo w ->
            GenerateQRCode sessionID w0
            = Done (QRCode session, None)
                (emit (Log Info "Returning existing QR code" sessionID)
                   (emit (CallGetByID sessionID) (emit RUnlock (emit RLock w0)))))
    as Hcall.
  { intros w0 Hs Hh Hr. unfold GenerateQRCode, sessionRepo_GetByID.
    run_monad. rewrite Hs, Hp. cbn. rewrite Hh, Hsc. cbn.
    rewrite bool_decide_false by exact Hst. cbn.
    rewrite Hr, Hrow. cbn. rewrite bool_decide_true by exact Hqr.
    reflexivity. }
  eexists _, _. split; [apply Hcall; reflexivity|].
  split; [apply Hcall; reflexivity|]. cbn.
  rewrite !spawned_app. cbn. rewrite !app_nil_r, <- !app_assoc.
  repeat split; reflexivity.
Qed.

(** *** The QR pairing loop *)

(** What the loop does with one event, whatever the event: it ends
    normally and touches neither the registry map nor a Worker. *)
Lemma handleQREvent_frame (w : world) (sessionID : SessionID) (evt : QRChannelItem) :
  exists b w', handleQREvent ext sessionID evt w = Done b w'
    /\ sessions w' = sessions w /\ heap w' = heap w.
Proof.
  unfold handleQREvent, generateQRCodeImage, sessionRepo_SetQRCode,
    sessionRepo_write.
  run_monad.
  repeat case_bool_decide; cbn;
    repeat match goal with
      | |- context [qrcode_Encode ext ?c] => destruct (qrcode_Encode ext c); cbn
      | |- context [SetQRCode ?r ?i ?q] =>
          destruct (SetQRCode r i q) as [? [?|]]; cbn
      end;
    eexists _, _; (split; [reflexivity|]); split; reflexivity.
Qed.


(** C4 (amended). In the QR pairing loop a "code" event whose image is
    generated writes the image to the store as the session's QR code and
    the loop goes on; a "success" and a "timeout" event write the empty QR
    code and end the loop.  Whatever the event, the loop changes neither
    the registry map nor a Worker: it makes no status transition.  A
    registered Worker becomes "connected" when the client's Connected
    event reaches the handler installed by [setupEventHandlers]. *)
Theorem handleQREvent_effects (w : world) (sessionID : SessionID)
    (evt : QRChannelItem) :
  (Event evt = "code" ->
   forall image, qrcode_Encode ext (Code evt) = inl image ->
   exists w', handleQREvent ext sessionID evt w = Done true w'
     /\ sessionRepo w'
        = fst (SetQRCode (sessionRepo w) sessionID
                 ("data:image/png;base64," +:+ base64_EncodeToString ext image)))
  /\ (Event evt = "success" \/ Event evt = "timeout" ->
      exists w', handleQREvent ext sessionID evt w = Done false w'
        /\ sessionRepo w' = fst (SetQRCode (sessionRepo w) sessionID ""))
  /\ (exists b w', handleQREvent ext sessionID evt w = Done b w'
        /\ sessions w' = sessions w /\ heap w' = heap w)
  /\ (forall p sc,
        sessions w !! sessionID = Some p ->
        heap w !! p = Some sc ->
        exists w', eventHandler sessionID events_Connected w = Done tt w'
          /\ heap w'
             = <[p := with_LastSeen (clock w) (with_Status "connected" sc)]> (heap w)).
Proof.
  split; [|split; [|split]].
  - intros Hev image Himg.
    unfold handleQREvent, generateQRCodeImage, sessionRepo_SetQRCode,
      sessionRepo_write.
    run_monad. rewrite bool_decide_true by exact Hev. cbn. rewrite Himg. cbn.
    destruct (SetQRCode _ _ _) as [r [err|]]; cbn;
      eexists; split; reflexivity.
  - intros Hev.
    unfold handleQREvent, sessionRepo_SetQRCode, sessionRepo_write.
    run_monad.
    destruct Hev as [Hev|Hev]; rewrite Hev;
      repeat (case_bool_decide; try congruence); cbn;
      destruct (SetQRCode _ _ _) as [r [err|]]; cbn;
      eexists; split; reflexivity.
  - apply handleQREvent_frame.
  - intros p sc Hp Hsc. unfold eventHandler, updateSessionStatus.
    run_monad. rewrite Hp. cbn. rewrite Hsc. cbn.
    rewrite lookup_insert_eq. cbn.
    eexists; split; [reflexivity|]. cbn. apply insert_insert_eq.
Qed.

(** *** The worker's goroutine *)

#[local] Arguments handleQRCodeGeneration : simpl never.
#[local] Arguments select_case : simpl never.
#[local] Arguments handleSessionConnection_cleanup : simpl never.




(** *** The mutex *)

Lemma emits_only_bind {A B} (ok : Action -> bool) (w : world)
    (r : Res A) (f : A -> M B) :
  emits_only ok w r ->
  (forall a w', emits_only ok w' (f a w')) ->
  emits_only ok w (bind_res r f).
Proof.
  intros Hr Hf. destruct r as [a w1|v w1|]; cbn in *; [|exact Hr|exact Hr].
  destruct Hr as (n1 & Ht1 & Hok1). specialize (Hf a w1).
  destruct (f a w1) as [b w2|v w2|]; cbn in *; [| |exact Hf];
    destruct Hf as (n2 & Ht2 & Hok2); exists (n1 ++ n2);
    rewrite Ht2, Ht1, <- app_assoc, forallb_app, Hok1, Hok2; auto.
Qed.

(** Closes [emits_only] for a run that has been evaluated. *)
Ltac emitted :=
  cbn; eexists; split;
  [rewrite <- ?app_assoc; cbn; try reflexivity; symmetry; apply app_nil_r
  | reflexivity].

Lemma cleanupSessionUnsafe_emits (w : world) (sessionID : SessionID) :
  emits_only no_lock_no_connect w (cleanupSessionUnsafe sessionID w).
Proof.
  unfold cleanupSessionUnsafe, Disconnect. run_monad.
  destruct (sessions w !! sessionID) as [p|]; cbn; [|emitted].
  destruct (heap w !! p) as [sc|] eqn:Hsc; cbn; [|emitted].
  case_bool_decide; cbn.
  - rewrite Hsc. cbn. destruct (Client sc); emitted.
  - destruct (Client sc); emitted.
Qed.

Lemma StartSession_register_emits (w : world) (sessionID : SessionID) :
  emits_only no_lock_no_connect w (StartSession_register ext sessionID w).
Proof.
  unfold StartSession_register, sessionRepo_GetByID, GetOrCreateDevice,
    whatsmeow_NewClient.
  run_monad. case_bool_decide; cbn; [emitted|].
  destruct (GetByID (sessionRepo w) sessionID) as [session|err]; cbn; [|emitted].
  destruct (storeManager_GetOrCreateDevice ext sessionID (WAJID session));
    emitted.
Qed.

Lemma updateSessionStatus_emits (w : world) (sessionID : SessionID)
    (status : ConnectionStatus) :
  emits_only no_lock_no_blocking w
    (match sessions w !! sessionID with
     | Some p =>
         bind (store p (with_Status status))
           (fun _ => bind time_Now (fun now =>
              bind (store p (with_LastSeen now))
                (fun _ => go (GoUpdateStatus sessionID status))))
     | None => ret tt
     end w).
Proof.
  run_monad. destruct (sessions w !! sessionID) as [p|]; cbn; [|emitted].
  destruct (heap w !! p) as [sc|]; cbn; [|emitted].
  heap_simpl. emitted.
Qed.

#[local] Arguments cleanupSessionUnsafe : simpl never.
#[local] Arguments StartSession_register : simpl never.

(** A run under [mutex.Lock(); defer mutex.Unlock()]. *)
Lemma locked_run {A} (ok : Action -> bool) (w : world) (body : M A) :
  emits_only ok (emit Lock w) (body (emit Lock w)) ->
  exists new,
    trace (res_world (bind mutex_Lock (fun _ => defer mutex_Unlock body) w))
    = trace w ++ Lock :: new ++ [Unlock]
    /\ forallb ok new = true.
Proof.
  unfold mutex_Lock, mutex_Unlock, defer, do, modify, bind. cbn.
  destruct (body (emit Lock w)) as [a w'|v w'|]; cbn; [| |tauto];
    intros (new & Ht & Hok); exists new; rewrite Ht; cbn;
    rewrite <- !app_assoc; auto.
Qed.

(** C8 (amended). [StartSession] holds the registry's mutex from its
    first step to its return, and so across the blocking calls it makes
    itself: for a session that is not registered, with the registry below
    its limit, the read of the session row and then the retrieval of the
    device are made under the lock; when it replaces a Worker that is not
    connected, the disconnect of that Worker's client is made under the
    lock.  What [StartSession] never does is connect the client or open
    the QR channel: that is left to the Worker's goroutine.
    [updateSessionStatus] makes no blocking call while it holds the
    mutex. *)
Theorem StartSession_lock_discipline (w : world) (sessionID : SessionID) :
  (exists body,
     trace (res_world (StartSession ext sessionID w))
     = trace w ++ Lock :: body ++ [Unlock]
     /\ existsb is_lock_op body = false
     /\ existsb is_connect_call body = false)
  /\ (sessions w !! sessionID = None ->
      (Z.of_nat (size (sessions w)) < maxSessions w)%Z ->
      exists new,
        trace (res_world (StartSession ext sessionID w)) = trace w ++ new
        /\ calls_under_lock false new
           = match GetByID (sessionRepo w) sessionID with
             | inl session =>
                 [CallGetByID sessionID;
                  CallGetOrCreateDevice sessionID (WAJID session)]
             | inr _ => [CallGetByID sessionID]
             end)
  /\ (forall p sc c,
        sessions w !! sessionID = Some p ->
        heap w !! p = Some sc ->
        Status sc <> "connected" ->
        Client sc = Some c ->
        exists new tl,
          trace (res_world (StartSession ext sessionID w)) = trace w ++ new
          /\ calls_under_lock false new = CallDisconnect c :: tl)
  /\ (forall status,
        exists body,
          trace (res_world (updateSessionStatus sessionID status w))
          = trace w ++ Lock :: body ++ [Unlock]
          /\ existsb is_lock_op body = false
          /\ calls_under_lock false (Lock :: body ++ [Unlock]) = []).
Proof.
  split; [|split; [|split]].
  - unfold StartSession.
    match goal with
    | |- context [defer mutex_Unlock ?b] =>
        destruct (locked_run no_lock_no_connect w b) as (body & Ht & Hok)
    end.
    + run_monad. destruct (sessions w !! sessionID) as [p|]; cbn.
      * destruct (heap w !! p) as [sc|]; cbn; [|emitted].
        case_bool_decide; cbn; [emitted|].
        apply emits_only_bind; [apply cleanupSessionUnsafe_emits|].
        intros _ w'. apply StartSession_register_emits.
      * apply StartSession_register_emits.
    + exists body. split; [exact Ht|].
      clear Ht. induction body as [|a body IH]; [auto|].
      cbn in Hok. apply andb_true_iff in Hok as [Ha Hok].
      destruct (IH Hok) as [IH1 IH2]. cbn. rewrite IH1, IH2.
      unfold no_lock_no_connect in Ha. apply andb_true_iff in Ha as [Ha1 Ha2].
      apply negb_true_iff in Ha1, Ha2. rewrite Ha1, Ha2. auto.
  - intros Hnone Hcap.
    unfold StartSession, StartSession_register, sessionRepo_GetByID,
      GetOrCreateDevice, whatsmeow_NewClient.
    run_monad. rewrite Hnone. cbn. rewrite bool_decide_false by lia. cbn.
    destruct (GetByID (sessionRepo w) sessionID) as [session|err]; cbn;
      [destruct (storeManager_GetOrCreateDevice ext sessionID (WAJID session));
       cbn|];
      eexists; (split; [rewrite <- !app_assoc; cbn; reflexivity|]);
      cbn; reflexivity.
  - intros p sc c Hp Hsc Hst Hc.
    unfold StartSession, cleanupSessionUnsafe, Disconnect.
    run_monad. rewrite Hp. cbn. rewrite Hsc. cbn.
    rewrite bool_decide_false by exact Hst. cbn. rewrite Hp. cbn.
    rewrite Hsc. cbn.
    case_bool_decide; cbn; rewrite ?Hsc; cbn; rewrite Hc; cbn;
      match goal with
      | |- context [StartSession_register ext sessionID ?w0] =>
          pose proof (StartSession_register_emits w0 sessionID) as Hreg;
            destruct (StartSession_register ext sessionID w0)
              as [a w'|v w'|]; cbn in Hreg |- *; [| |destruct Hreg];
            destruct Hreg as (new & -> & _)
      end;
      eexists _, _; (split; [rewrite <- !app_assoc; cbn; reflexivity|]);
      cbn; reflexivity.
  - intros status. unfold updateSessionStatus.
    match goal with
    | |- context [defer mutex_Unlock ?b] =>
        destruct (locked_run no_lock_no_blocking w b) as (body & Ht & Hok)
    end.
    + unfold get, bind at 1. cbn [bind_res].
      apply (updateSessionStatus_emits (emit Lock w) sessionID status).
    + exists body. split; [exact Ht|].
      clear Ht. cbn. induction body as [|a body IH]; [auto|].
      cbn in Hok. apply andb_true_iff in Hok as [Ha Hok].
      destruct (IH Hok) as [IH1 IH2].
      unfold no_lock_no_blocking in Ha. apply andb_true_iff in Ha as [Ha1 Ha2].
      apply negb_true_iff in Ha1, Ha2.
      split; [cbn; rewrite Ha1, IH1; reflexivity|].
      destruct a; try discriminate Ha1; try discriminate Ha2; cbn; exact IH2.
Qed.

(** * Further properties of the manager *)

(** ** Starting a session *)

(** [StartSession] for a session that is not registered, below the limit,
    whose row and device are found: a Worker with a new client, an empty
    kill channel and the status "disconnected" is registered at an address
    no Worker had, the registry grows by one, and exactly one goroutine,
    the Worker's, is started.  The store is not written. *)
Theorem StartSession_registers (w : world) (sessionID : SessionID)
    (session : Session) (device : store_Device) :
  sessions w !! sessionID = None ->
  (Z.of_nat (size (sessions w)) < maxSessions w)%Z ->
  GetByID (sessionRepo w) sessionID = inl session ->
  storeManager_GetOrCreateDevice ext sessionID (WAJID session) = inl device ->
  exists w' p,
    StartSession ext sessionID w = Done None w'
    /\ heap w !! p = None
    /\ sessions w' = <[sessionID := p]> (sessions w)
    /\ heap w'
       = <[p := mkSessionClient (Some (next_client w)) (Some device) []
                  "disconnected" (clock w)]> (heap w)
    /\ size (sessions w') = S (size (sessions w))
    /\ next_client w' = S (next_client w)
    /\ sessionRepo w' = sessionRepo w
    /\ spawned (trace w')
       = spawned (trace w) ++ [GoHandleSessionConnection sessionID p].
Proof.
  intros Hnone Hcap Hrow Hdev.
  unfold StartSession, StartSession_register, sessionRepo_GetByID,
    GetOrCreateDevice, whatsmeow_NewClient.
  run_monad. rewrite Hnone. cbn. rewrite bool_decide_false by lia. cbn.
  rewrite Hrow. cbn. rewrite Hdev. cbn.
  eexists _, (fresh (dom (heap w))). split; [reflexivity|]. cbn.
  split; [apply not_elem_of_dom, is_fresh|].
  split; [reflexivity|]. split; [reflexivity|].
  split; [apply map_size_insert_None, Hnone|].
  split; [reflexivity|]. split; [reflexivity|].
  rewrite !spawned_app. cbn. rewrite !app_nil_r. reflexivity.
Qed.

(** When the store has no row for the session (or fails), or no device
    can be had, [StartSession] returns that error wrapped and registers
    nothing: the registry map and the Workers are unchanged, no client is
    created and no goroutine is started. *)
Theorem StartSession_lookup_failure (w : world) (sessionID : SessionID) :
  sessions w !! sessionID = None ->
  (Z.of_nat (size (sessions w)) < maxSessions w)%Z ->
  (forall err,
     GetByID (sessionRepo w) sessionID = inr err ->
     exists w',
       StartSession ext sessionID w
       = Done (Some (Wrapf "failed to get session from database" err)) w'
       /\ sessions w' = sessions w /\ heap w' = heap w
       /\ next_client w' = next_client w
       /\ trace w' = trace w ++ [Lock; CallGetByID sessionID; Unlock])
  /\ (forall session err,
        GetByID (sessionRepo w) sessionID = inl session ->
        storeManager_GetOrCreateDevice ext sessionID (WAJID session) = inr err ->
        exists w',
          StartSession ext sessionID w
          = Done (Some (Wrapf "failed to get or create device" err)) w'
          /\ sessions w' = sessions w /\ heap w' = heap w
          /\ next_client w' = next_client w
          /\ spawned (trace w') = spawned (trace w)).
Proof.
  intros Hnone Hcap.
  unfold StartSession, StartSession_register, sessionRepo_GetByID,
    GetOrCreateDevice.
  split.
  - intros err Hrow. run_monad. rewrite Hnone. cbn.
    rewrite bool_decide_false by lia. cbn. rewrite Hrow. cbn.
    eexists. split; [reflexivity|]. cbn. rewrite <- !app_assoc. auto.
  - intros session err Hrow Hdev. run_monad. rewrite Hnone. cbn.
    rewrite bool_decide_false by lia. cbn. rewrite Hrow. cbn. rewrite Hdev. cbn.
    eexists. split; [reflexivity|]. cbn.
    rewrite !spawned_app. cbn. rewrite !app_nil_r. auto.
Qed.

(** [StartSession] for a session whose registered Worker is not
    connected tears that Worker down first: it gets the kill signal, its
    client is disconnected and its entry is removed.  When the row of the
    session is then not found, the error is returned and the session is
    left with no Worker at all. *)
Theorem StartSession_failed_restart_unregisters (w : world)
    (sessionID : SessionID) (p : loc) (sc : SessionClient)
    (c : whatsmeow_Client) (err : error) :
  sessions w !! sessionID = Some p ->
  heap w !! p = Some sc ->
  Status sc <> "connected" ->
  Client sc = Some c ->
  KillChannel sc = [] ->
  (Z.of_nat (size (delete sessionID (sessions w))) < maxSessions w)%Z ->
  GetByID (sessionRepo w) sessionID = inr err ->
  exists w',
    StartSession ext sessionID w
    = Done (Some (Wrapf "failed to get session from database" err)) w'
    /\ sessions w' = delete sessionID (sessions w)
    /\ heap w' = <[p := with_KillChannel [true] sc]> (heap w)
    /\ trace w'
       = trace w
         ++ [Lock; CallDisconnect c; Log Info "Session cleaned up" sessionID;
             CallGetByID sessionID; Unlock].
Proof.
  intros Hp Hsc Hst Hc Hkill Hcap Hrow.
  unfold StartSession, StartSession_register, cleanupSessionUnsafe,
    sessionRepo_GetByID, Disconnect.
  run_monad. rewrite Hp. cbn. rewrite Hsc. cbn.
  rewrite bool_decide_false by exact Hst. cbn. rewrite Hp. cbn. rewrite Hsc. cbn.
  rewrite Hkill. cbn. rewrite bool_decide_true by lia. cbn.
  rewrite Hsc. cbn. rewrite Hc. cbn.
  rewrite bool_decide_false by lia. cbn. rewrite Hrow. cbn.
  eexists. split; [reflexivity|]. cbn. rewrite Hkill, <- !app_assoc. auto.
Qed.

(** The same call when the row and the device are found: the old Worker
    is torn down and a new Worker, with a new client, is registered for
    the session at another address, with a goroutine of its own.  This is
    also what a second [StartSession] does to a Worker that has just been
    started and is not connected yet. *)
Theorem StartSession_restart_replaces (w : world)
    (sessionID : SessionID) (p : loc) (sc : SessionClient)
    (c : whatsmeow_Client) (session : Session) (device : store_Device) :
  sessions w !! sessionID = Some p ->
  heap w !! p = Some sc ->
  Status sc <> "connected" ->
  Client sc = Some c ->
  KillChannel sc = [] ->
  (Z.of_nat (size (delete sessionID (sessions w))) < maxSessions w)%Z ->
  GetByID (sessionRepo w) sessionID = inl session ->
  storeManager_GetOrCreateDevice ext sessionID (WAJID session) = inl device ->
  exists w' p',
    StartSession ext sessionID w = Done None w'
    /\ p' <> p
    /\ sessions w' = <[sessionID := p']> (sessions w)
    /\ heap w'
       = <[p' := mkSessionClient (Some (next_client w)) (Some device) []
                   "disconnected" (clock w)]>
           (<[p := with_KillChannel [true] sc]> (heap w))
    /\ size (sessions w') = size (sessions w)
    /\ trace w'
       = trace w
         ++ [Lock; CallDisconnect c; Log Info "Session cleaned up" sessionID;
             CallGetByID sessionID;
             CallGetOrCreateDevice sessionID (WAJID session);
             CallNewClient (next_client w);
             Go (GoHandleSessionConnection sessionID p');
             Log Info "Session started" sessionID; Unlock].
Proof.
  intros Hp Hsc Hst Hc Hkill Hcap Hrow Hdev.
  unfold StartSession, StartSession_register, cleanupSessionUnsafe,
    sessionRepo_GetByID, GetOrCreateDevice, whatsmeow_NewClient, Disconnect.
  run_monad. rewrite Hp. cbn. rewrite Hsc. cbn.
  rewrite bool_decide_false by exact Hst. cbn. rewrite Hp. cbn. rewrite Hsc. cbn.
  rewrite Hkill. cbn. rewrite bool_decide_true by lia. cbn.
  rewrite Hsc. cbn. rewrite Hc. cbn.
  rewrite bool_decide_false by lia. cbn. rewrite Hrow. cbn. rewrite Hdev. cbn.
  eexists _, (fresh (dom (<[p := with_KillChannel [true] sc]> (heap w)))).
  rewrite Hkill. split; [reflexivity|]. cbn.
  split.
  { intros Heq.
    apply (is_fresh (dom (<[p := with_KillChannel [true] sc]> (heap w)))).
    rewrite Heq at 1. rewrite dom_insert_L. set_solver. }
  split; [apply insert_delete_eq|]. split; [reflexivity|].
  split.
  { rewrite insert_delete_eq.
    rewrite <- (insert_id (sessions w) sessionID p Hp) at 2.
    rewrite <- (insert_delete_eq (sessions w)) at 1.
    rewrite <- (insert_delete_eq (sessions w) sessionID p).
    rewrite !map_size_insert_None by apply lookup_delete_eq. reflexivity. }
  rewrite <- !app_assoc. reflexivity.
Qed.

(** What [cleanupSessionUnsafe] does to the registry map: nothing, or it
    removes the session. *)
Lemma cleanupSessionUnsafe_sessions (w : world) (sessionID : SessionID) :
  (sessions (res_world (cleanupSessionUnsafe sessionID w)) = sessions w
   \/ sessions (res_world (cleanupSessionUnsafe sessionID w))
      = delete sessionID (sessions w))
  /\ maxSessions (res_world (cleanupSessionUnsafe sessionID w)) = maxSessions w.
Proof.
  unfold cleanupSessionUnsafe, Disconnect. run_monad.
  destruct (sessions w !! sessionID) as [p|]; cbn; [|auto].
  destruct (heap w !! p) as [sc|] eqn:Hsc; cbn; [|auto].
  case_bool_decide; cbn; rewrite ?Hsc; cbn; destruct (Client sc); cbn; auto.
Qed.

Lemma StartSession_register_limit (w : world) (sessionID : SessionID) :
  (Z.of_nat (size (sessions w)) <= maxSessions w)%Z ->
  (Z.of_nat (size (sessions (res_world (StartSession_register ext sessionID w))))
   <= maxSessions w)%Z
  /\ maxSessions (res_world (StartSession_register ext sessionID w))
     = maxSessions w.
Proof.
  intros Hle.
  unfold StartSession_register, sessionRepo_GetByID, GetOrCreateDevice,
    whatsmeow_NewClient.
  run_monad. case_bool_decide; cbn; [auto|].
  destruct (GetByID (sessionRepo w) sessionID) as [session|err]; cbn; [|auto].
  destruct (storeManager_GetOrCreateDevice ext sessionID (WAJID session));
    cbn; [|auto].
  split; [|reflexivity].
  pose proof (map_size_insert sessionID (fresh (dom (heap w))) (sessions w)) as Hs.
  destruct (sessions w !! sessionID); unfold id in Hs; lia.
Qed.

(** The limit is an invariant of [StartSession]: a registry that holds no
    more Workers than its limit holds no more than its limit afterwards,
    on every path, and the limit itself is not changed. *)
Theorem StartSession_keeps_limit (w : world) (sessionID : SessionID) :
  (Z.of_nat (size (sessions w)) <= maxSessions w)%Z ->
  (Z.of_nat (size (sessions (res_world (StartSession ext sessionID w))))
   <= maxSessions w)%Z
  /\ maxSessions (res_world (StartSession ext sessionID w)) = maxSessions w.
Proof.
  intros Hle. unfold StartSession. run_monad.
  destruct (sessions w !! sessionID) as [p|] eqn:Hp; cbn.
  - destruct (heap w !! p) as [sc|]; cbn; [|auto].
    case_bool_decide; cbn; [auto|].
    destruct (cleanupSessionUnsafe_sessions (emit Lock w) sessionID)
      as [Hs Hm].
    destruct (cleanupSessionUnsafe sessionID (emit Lock w))
      as [a w1|v w1|ready k w1]; cbn in *; [| |].
    + destruct (StartSession_register_limit w1 sessionID) as [Hs' Hm'].
      { rewrite Hm. pose proof (map_size_delete sessionID (sessions w)) as Hd.
        rewrite Hp in Hd. cbn in Hd.
        destruct Hs as [-> | ->]; lia. }
      destruct (StartSession_register ext sessionID w1); cbn in *;
        rewrite <- Hm; split; congruence || lia.
    + pose proof (map_size_delete sessionID (sessions w)) as Hd.
      rewrite Hp in Hd. cbn in Hd. split; [|exact Hm].
      destruct Hs as [-> | ->]; lia.
    + pose proof (map_size_delete sessionID (sessions w)) as Hd.
      rewrite Hp in Hd. cbn in Hd. split; [|exact Hm].
      destruct Hs as [-> | ->]; lia.
  - destruct (StartSession_register_limit (emit Lock w) sessionID Hle)
      as [Hs Hm].
    destruct (StartSession_register ext sessionID (emit Lock w)); cbn in *;
      auto.
Qed.

(** ** Stopping a session *)

(** [StopSession] for a registered session returns nil: the entry is
    removed, the Worker holds a kill signal afterwards (one more than
    before unless its one-slot channel was full, in which case the send
    is dropped), its client is disconnected, and the status query then
    answers "disconnected".  [StopSession] starts no goroutine and does
    not write the store. *)
Theorem StopSession_registered (w : world) (sessionID : SessionID)
    (p : loc) (sc : SessionClient) :
  sessions w !! sessionID = Some p ->
  heap w !! p = Some sc ->
  exists w' sc',
    StopSession sessionID w = Done None w'
    /\ sessions w' = delete sessionID (sessions w)
    /\ heap w' !! p = Some sc'
    /\ (forall q, q <> p -> heap w' !! q = heap w !! q)
    /\ Client sc' = Client sc /\ Status sc' = Status sc
    /\ KillChannel sc'
       = (if bool_decide (length (KillChannel sc) < 1)
          then KillChannel sc ++ [true] else KillChannel sc)
    /\ trace w'
       = trace w
         ++ [Lock]
         ++ match Client sc with Some c => [CallDisconnect c] | None => [] end
         ++ [Log Info "Session cleaned up" sessionID; Unlock]
    /\ sessionRepo w' = sessionRepo w
    /\ res_value (GetSessionStatus sessionID w') = Some "disconnected".
Proof.
  intros Hp Hsc.
  unfold StopSession, GetSessionStatus, cleanupSessionUnsafe, Disconnect.
  run_monad. rewrite Hp. cbn. rewrite Hsc. cbn.
  case_bool_decide; cbn; rewrite ?Hsc; cbn.
  - destruct (Client sc) as [c|] eqn:Hc; cbn;
      eexists _, _; (split; [reflexivity|]); cbn;
      rewrite lookup_insert_eq, lookup_delete_eq, <- !app_assoc;
      (repeat split; try reflexivity); try (cbn; assumption);
      intros q Hq; apply lookup_insert_ne; congruence.
  - destruct (Client sc) as [c|] eqn:Hc; cbn;
      eexists _, sc; (split; [reflexivity|]); cbn;
      rewrite lookup_delete_eq, <- !app_assoc;
      (repeat split; try reflexivity); try assumption.
Qed.

(** A Worker stopped while it is parked: [StopSession] runs while the
    goroutine of a connected (paired) Worker waits in its [select]; the
    goroutine then wakes up, disconnects the client once more and ends.
    Its last status update finds no Worker under the session ID, so no
    write of "disconnected" to the store is started: the only status
    write this Worker ever started is "connecting". *)
Theorem stopped_worker_exits (w : world) (sessionID : SessionID)
    (p : loc) (sc : SessionClient) (c : whatsmeow_Client)
    (dev : store_Device) (jid : string) :
  sessions w !! sessionID = Some p ->
  heap w !! p = Some sc ->
  Client sc = Some c ->
  Device sc = Some dev ->
  KillChannel sc = [] ->
  DeviceID dev = Some jid ->
  Client_Connect ext c = ConnectOk ->
  exists w',
    resume (interfere (fun w1 => res_world (StopSession sessionID w1))
              (run ext (GoHandleSessionConnection sessionID p) w))
    = Done tt w'
    /\ sessions w' = delete sessionID (sessions w)
    /\ sessionRepo w' = sessionRepo w
    /\ spawned (trace w')
       = spawned (trace w) ++ [GoUpdateStatus sessionID "connecting"]
    /\ trace w'
       = trace w
         ++ [Lock; Go (GoUpdateStatus sessionID "connecting"); Unlock;
             CallAddEventHandler c;
             Log Info "Device has stored ID, attempting direct connection"
               sessionID;
             CallConnect c;
             Lock; CallDisconnect c; Log Info "Session cleaned up" sessionID;
             Unlock;
             Log Info "Session received kill signal" sessionID;
             CallDisconnect c;
             Lock; Unlock].
Proof.
  intros Hp Hsc Hc Hdev Hkill Hjid Hconn.
  unfold run, handleSessionConnection, updateSessionStatus, setupEventHandlers,
    select_kill_or_done, Connect, StopSession, cleanupSessionUnsafe,
    select_case, handleSessionConnection_cleanup, Disconnect.
  run_monad.
  repeat (progress (rewrite ?lookup_insert_eq, ?insert_insert_eq,
                      ?Hp, ?Hsc, ?Hc, ?Hdev, ?Hjid, ?Hconn; cbn)).
  unfold kill_ready. cbn. heap_simpl. rewrite Hkill. cbn.
  repeat (progress (rewrite ?lookup_insert_eq, ?insert_insert_eq,
                      ?Hp, ?Hsc, ?Hc, ?Hkill, ?lookup_delete_eq; cbn)).
  rewrite bool_decide_true by lia. cbn.
  repeat (progress (rewrite ?lookup_insert_eq, ?insert_insert_eq,
                      ?Hp, ?Hsc, ?Hc, ?Hkill, ?lookup_delete_eq; cbn)).
  eexists. split; [reflexivity|]. cbn.
  rewrite !spawned_app, <- !app_assoc. cbn. rewrite ?app_nil_r.
  repeat split; reflexivity.
Qed.

(** ** Events of the client *)

(** A PairSuccess event writes the identity to the store as the
    session's WAJID, whether or not the store accepts it, and changes
    nothing in memory: the registry map and the Workers (their statuses
    included) are what they were and no goroutine is started.  An event of
    another kind than Connected, Disconnected and PairSuccess changes
    nothing at all. *)
Theorem eventHandler_PairSuccess (w : world) (sessionID : SessionID)
    (jid : string) :
  (exists w',
     eventHandler sessionID (events_PairSuccess jid) w = Done tt w'
     /\ sessionRepo w' = fst (SetWAJID (sessionRepo w) sessionID jid)
     /\ sessions w' = sessions w /\ heap w' = heap w
     /\ spawned (trace w') = spawned (trace w))
  /\ eventHandler sessionID events_Other w = Done tt w.
Proof.
  split; [|reflexivity].
  unfold eventHandler, sessionRepo_SetWAJID, sessionRepo_write. run_monad.
  destruct (SetWAJID (sessionRepo w) sessionID jid) as [r [err|]]; cbn;
    (eexists; split; [reflexivity|]); cbn;
    rewrite !spawned_app; cbn; rewrite !app_nil_r; auto.
Qed.

(** ** Requests for the QR code *)

(** [GenerateQRCode] refuses a session with no Worker and a session whose
    Worker is connected before it reads the store: all it does is take and
    release the read lock.  Nothing is started and nothing is written. *)
Theorem GenerateQRCode_refused (w : world) (sessionID : SessionID) :
  (sessions w !! sessionID = None ->
   GenerateQRCode sessionID w
   = Done ("", Some (Errorf ("session " +:+ sessionID +:+ " not found")))
       (emit RUnlock (emit RLock w)))
  /\ (forall p sc,
        sessions w !! sessionID = Some p ->
        heap w !! p = Some sc ->
        Status sc = "connected" ->
        GenerateQRCode sessionID w
        = Done ("", Some (Errorf ("session " +:+ sessionID
                                    +:+ " is already connected")))
            (emit RUnlock (emit RLock w))).
Proof.
  unfold GenerateQRCode. split.
  - intros Hnone. run_monad. rewrite Hnone. reflexivity.
  - intros p sc Hp Hsc Hst. run_monad. rewrite Hp. cbn. rewrite Hsc. cbn.
    rewrite Hst. reflexivity.
Qed.

(** The QR loop only appends to the trace. *)
Lemma handleQREvents_extends (sessionID : SessionID) (qrChan : list QRChannelItem) :
  forall w : world,
  exists tl,
    trace (res_world (handleQREvents ext sessionID qrChan w)) = trace w ++ tl.
Proof.
  induction qrChan as [|evt rest IH]; intros w.
  - exists []. cbn. symmetry. apply app_nil_r.
  - cbn [handleQREvents]. unfold bind.
    assert (exists b w1 tl1,
              handleQREvent ext sessionID evt w = Done b w1
              /\ trace w1 = trace w ++ tl1) as (b & w1 & tl1 & -> & Ht1).
    { unfold handleQREvent, generateQRCodeImage, sessionRepo_SetQRCode,
        sessionRepo_write.
      run_monad.
      repeat case_bool_decide; cbn;
        repeat match goal with
          | |- context [qrcode_Encode ext ?c] =>
              destruct (qrcode_Encode ext c); cbn
          | |- context [SetQRCode ?r ?i ?q] =>
              destruct (SetQRCode r i q) as [? [?|]]; cbn
          end;
        eexists _, _, _; (split; [reflexivity|]); cbn;
        rewrite <- ?app_assoc; reflexivity. }
    cbn. destruct b.
    + destruct (IH w1) as (tl & Ht). exists (tl1 ++ tl).
      rewrite Ht, Ht1, <- app_assoc. reflexivity.
    + exists tl1. exact Ht1.
Qed.

(** The QR pairing flow opens the QR channel before it connects the
    client: the first call it makes is [GetQRChannel], and [Connect]
    follows at once if the channel was obtained; if not, the flow logs the
    error and the client is never connected. *)
Theorem handleQRCodeGeneration_channel_first (w : world) (ctx : Context)
    (sessionID : SessionID) (p : loc) (sc : SessionClient)
    (c : whatsmeow_Client) :
  heap w !! p = Some sc ->
  Client sc = Some c ->
  match Client_GetQRChannel ext c with
  | inl _ =>
      exists tl,
        trace (res_world (handleQRCodeGeneration ext ctx sessionID p w))
        = trace w ++ CallGetQRChannel c :: CallConnect c :: tl
  | inr _ =>
      handleQRCodeGeneration ext ctx sessionID p w
      = Done tt (emit (Log Error "Failed to get QR channel" sessionID)
                   (emit (CallGetQRChannel c) w))
  end.
Proof.
  intros Hsc Hc. unfold handleQRCodeGeneration, GetQRChannel, Connect.
  run_monad. rewrite Hsc. cbn. rewrite Hc. cbn.
  destruct (Client_GetQRChannel ext c) as [qrChan|err]; cbn; [|reflexivity].
  destruct (Client_Connect ext c) as [|err|v]; cbn.
  - match goal with
    | |- context [handleQREvents ext sessionID qrChan ?w0] =>
        destruct (handleQREvents_extends sessionID qrChan w0) as (tl & Ht)
    end.
    exists tl. rewrite Ht. cbn. rewrite <- !app_assoc. reflexivity.
  - eexists. rewrite <- !app_assoc. reflexivity.
  - eexists. rewrite <- !app_assoc. reflexivity.
Qed.

Lemma handleQREvent_terminal (w : world) (sessionID : SessionID)
    (evt : QRChannelItem) :
  Event evt = "success" \/ Event evt = "timeout" ->
  exists w', handleQREvent ext sessionID evt w = Done false w'.
Proof.
  intros Hev. unfold handleQREvent, sessionRepo_SetQRCode, sessionRepo_write.
  run_monad.
  destruct Hev as [Hev|Hev]; rewrite Hev;
    repeat (case_bool_decide; try congruence); cbn;
    destruct (SetQRCode _ _ _) as [r [err|]]; cbn; eexists; reflexivity.
Qed.

(** The QR loop ends at the first "success" or "timeout" event: whatever
    the channel delivers after it is not handled. *)
Theorem handleQREvents_stop_at_terminal (sessionID : SessionID)
    (pre post : list QRChannelItem) (evt : QRChannelItem) :
  Event evt = "success" \/ Event evt = "timeout" ->
  forall w : world,
    handleQREvents ext sessionID (pre ++ evt :: post) w
    = handleQREvents ext sessionID (pre ++ [evt]) w.
Proof.
  intros Hev. induction pre as [|e pre IH]; intros w.
  - cbn [app handleQREvents]. unfold bind.
    destruct (handleQREvent_terminal w sessionID evt Hev) as (w' & ->).
    reflexivity.
  - cbn [app handleQREvents]. unfold bind.
    destruct (handleQREvent_frame w sessionID e) as (b & w1 & -> & _).
    cbn. destruct b; [apply IH | reflexivity].
Qed.

(** ** The status written to the store *)

(** The goroutine that writes a status to the store always writes one of
    the four statuses of the domain: a status of the manager that is one
    of them is written as it is, any other string is written as
    "disconnected". *)
Theorem updateSessionStatus_write_valid (w : world) (sessionID : SessionID)
    (status : ConnectionStatus) :
  exists st w',
    run ext (GoUpdateStatus sessionID status) w = Done tt w'
    /\ (exists lvl msg,
          trace w' = trace w ++ [CallUpdateStatus sessionID st;
                                 Log lvl msg sessionID])
    /\ sessionRepo w' = fst (UpdateStatus (sessionRepo w) sessionID st)
    /\ Status_IsValid st = true
    /\ (Status_IsValid status = true -> st = status)
    /\ (Status_IsValid status = false -> st = "disconnected").
Proof.
  exists (toDomainStatus status).
  unfold run, updateSessionStatus_write, sessionRepo_UpdateStatus,
    sessionRepo_write.
  run_monad.
  assert (Status_IsValid (toDomainStatus status) = true
          /\ (Status_IsValid status = true -> toDomainStatus status = status)
          /\ (Status_IsValid status = false
              -> toDomainStatus status = "disconnected")) as Hvalid.
  { unfold toDomainStatus, Status_IsValid, StatusDisconnected, StatusConnecting,
      StatusConnected, StatusError, domain.StatusDisconnected,
      domain.StatusConnecting, domain.StatusConnected, domain.StatusError.
    destruct (decide (status = "disconnected")) as [->|H1];
      [vm_compute; repeat split; auto; discriminate|].
    destruct (decide (status = "connecting")) as [->|H2];
      [vm_compute; repeat split; auto; discriminate|].
    destruct (decide (status = "connected")) as [->|H3];
      [vm_compute; repeat split; auto; discriminate|].
    destruct (decide (status = "error")) as [->|H4];
      [vm_compute; repeat split; auto; discriminate|].
    rewrite !(bool_decide_false (status = _)) by assumption.
    vm_compute. repeat split; auto; discriminate. }
  destruct (UpdateStatus (sessionRepo w) sessionID (toDomainStatus status))
    as [r [err|]]; cbn;
    (eexists; split; [reflexivity|]); cbn; rewrite <- app_assoc;
    (split; [eexists _, _; reflexivity|]); split; auto.
Qed.

(** ** Reading the registry *)

(** [GetClient] hands out the client of every registered Worker,
    whatever the Worker's status (connecting and error included), and
    fails for a session that is not registered; [GetSessionClient] hands
    the client out only when the status is "connected". *)
Theorem GetClient_ignores_status (w : world) (sessionID : SessionID) :
  (sessions w !! sessionID = None ->
   res_value (GetClient sessionID w)
   = Some (None, Some (Errorf ("session not found: " +:+ sessionID)))
   /\ res_value (GetSessionClient sessionID w) = Some (None, false))
  /\ (forall p sc c,
        sessions w !! sessionID = Some p ->
        heap w !! p = Some sc ->
        Client sc = Some c ->
        res_value (GetClient sessionID w) = Some (Some c, None)
        /\ res_value (GetSessionClient sessionID w)
           = Some (if bool_decide (Status sc = "connected")
                   then (Some c, true) else (None, false))).
Proof.
  unfold GetClient, GetSessionClient. split.
  - intros Hnone. run_monad. rewrite Hnone. split; reflexivity.
  - intros p sc c Hp Hsc Hc. run_monad. rewrite Hp. cbn. rewrite Hsc. cbn.
    rewrite Hc. cbn. split; [reflexivity|]. unfold StatusConnected.
    case_bool_decide; cbn; rewrite ?Hc; reflexivity.
Qed.

(** In a registry whose pointers all point to Workers, [GetSessionClient]
    reports success exactly when [IsSessionConnected] answers true, and it
    hands out no client otherwise. *)
Theorem GetSessionClient_iff_connected (w : world) (sessionID : SessionID) :
  registry_wf w ->
  exists c ok,
    res_value (GetSessionClient sessionID w) = Some (c, ok)
    /\ res_value (IsSessionConnected sessionID w) = Some ok
    /\ (ok = false -> c = None).
Proof.
  intros Hwf. unfold GetSessionClient, IsSessionConnected, GetSessionStatus.
  run_monad. destruct (sessions w !! sessionID) as [p|] eqn:Hp; cbn.
  - destruct (Hwf _ _ Hp) as [sc Hsc]. rewrite Hsc. cbn.
    case_bool_decide; cbn; eexists _, _; repeat split; auto.
    discriminate.
  - eexists _, _. repeat split; auto.
Qed.

Lemma NoDup_fst_filter {K V} (P : K * V -> Prop) `{!forall x, Decision (P x)}
    (l : list (K * V)) :
  NoDup (l.*1) -> NoDup ((filter P l).*1).
Proof.
  induction l as [|x l IH]; [auto|]. intros Hnd. rewrite fmap_cons in Hnd.
  apply NoDup_cons in Hnd as [Hx Hnd]. specialize (IH Hnd).
  destruct (decide (P x)) as [HP|HP].
  - rewrite filter_cons_True by exact HP. cbn. apply NoDup_cons. split; [|exact IH].
    intros Hin. apply Hx. apply list_elem_of_fmap in Hin as (y & Hy & Hin).
    apply list_elem_of_filter in Hin as [_ Hin].
    apply list_elem_of_fmap. exists y. auto.
  - rewrite filter_cons_False by exact HP. exact IH.
Qed.

Lemma GetActiveSessions_range_spec (entries : list (SessionID * loc)) :
  forall (acc : list SessionID) (w : world),
    (forall e, e ∈ entries -> is_Some (heap w !! e.2)) ->
    GetActiveSessions_range entries acc w
    = Done (acc ++ (filter (fun e => is_active w e = true) entries).*1) w.
Proof.
  induction entries as [|[sessionID p] rest IH]; intros acc w Hheap.
  - cbn. unfold ret. rewrite app_nil_r. reflexivity.
  - destruct (Hheap (sessionID, p)) as [sc Hsc]; [left|]. cbn in Hsc.
    assert (is_active w (sessionID, p)
            = bool_decide (Status sc = StatusConnected)) as Hact.
    { unfold is_active. cbn. rewrite Hsc. reflexivity. }
    assert (forall e, e ∈ rest -> is_Some (heap w !! e.2)) as Hrest.
    { intros e He. apply Hheap. right. exact He. }
    cbn [GetActiveSessions_range]. unfold load, bind, get, deref.
    cbn [bind_res]. rewrite Hsc. unfold ret. cbn [bind_res].
    destruct (decide (Status sc = StatusConnected)) as [Hst|Hst].
    + rewrite (bool_decide_true _ Hst).
      rewrite filter_cons_True
        by (rewrite Hact; apply bool_decide_eq_true; exact Hst).
      rewrite (IH _ _ Hrest), fmap_cons, <- app_assoc. reflexivity.
    + rewrite (bool_decide_false _ Hst).
      rewrite filter_cons_False
        by (rewrite Hact, bool_decide_eq_true; exact Hst).
      apply (IH _ _ Hrest).
Qed.

(** [GetActiveSessions] returns, each once, exactly the IDs of the
    registry whose Worker has the status "connected". *)
Theorem GetActiveSessions_connected (w : world) :
  registry_wf w ->
  exists activeSessions,
    GetActiveSessions w = Done activeSessions (emit RUnlock (emit RLock w))
    /\ NoDup activeSessions
    /\ forall sessionID,
         sessionID ∈ activeSessions
         <-> exists p sc, sessions w !! sessionID = Some p
                          /\ heap w !! p = Some sc
                          /\ Status sc = "connected".
Proof.
  intros Hwf. unfold GetActiveSessions. run_monad.
  rewrite (GetActiveSessions_range_spec _ [] (emit RLock w)).
  2:{ intros [sessionID p] He. apply elem_of_map_to_list in He.
      exact (Hwf _ _ He). }
  cbn. eexists. split; [reflexivity|]. split.
  - apply NoDup_fst_filter, NoDup_fst_map_to_list.
  - intros sessionID. rewrite list_elem_of_fmap. split.
    + intros ([sid p] & -> & Hin). apply list_elem_of_filter in Hin as [Hact Hin].
      apply elem_of_map_to_list in Hin. unfold is_active in Hact. cbn in *.
      destruct (heap w !! p) as [sc|] eqn:Hsc; [|discriminate].
      apply bool_decide_eq_true in Hact. eauto.
    + intros (p & sc & Hp & Hsc & Hst). exists (sessionID, p).
      split; [reflexivity|]. apply list_elem_of_filter. split.
      * unfold is_active. cbn. rewrite Hsc. apply bool_decide_eq_true, Hst.
      * apply elem_of_map_to_list, Hp.
Qed.

(** ** Shutdown *)

(** One turn of the shutdown loop in a registry whose pointers all point
    to Workers. *)
Lemma cleanupSessionUnsafe_step (w : world) (sessionID : SessionID) :
  registry_wf w ->
  exists w' new,
    cleanupSessionUnsafe sessionID w = Done None w'
    /\ sessions w' = delete sessionID (sessions w)
    /\ same_clients w w'
    /\ (forall p, kill_ready p w = true -> kill_ready p w' = true)
    /\ (forall p, sessions w !! sessionID = Some p -> kill_ready p w' = true)
    /\ trace w' = trace w ++ new
    /\ spawned new = []
    /\ (forall p sc c,
          sessions w !! sessionID = Some p -> heap w !! p = Some sc ->
          Client sc = Some c -> CallDisconnect c ∈ new)
    /\ sessionRepo w' = sessionRepo w.
Proof.
  intros Hwf. unfold cleanupSessionUnsafe, Disconnect. run_monad.
  destruct (sessions w !! sessionID) as [p|] eqn:Hp; cbn.
  - destruct (Hwf _ _ Hp) as [sc Hsc]. rewrite Hsc. cbn.
    case_bool_decide as Hlen; cbn; rewrite ?Hsc; cbn.
    + assert (forall q, kill_ready q w = true ->
                kill_ready q
                  (set_heap <[p := with_KillChannel (KillChannel sc ++ [true]) sc]> w)
                = true) as Hmono.
      { intros q. unfold kill_ready. cbn.
        destruct (decide (q = p)) as [->|Hne].
        - rewrite lookup_insert_eq. cbn. intros _. apply bool_decide_eq_true.
          destruct (KillChannel sc); discriminate.
        - rewrite lookup_insert_ne by congruence. auto. }
      assert (same_clients w
                (set_heap <[p := with_KillChannel (KillChannel sc ++ [true]) sc]> w))
        as Hsame.
      { intros q. cbn. destruct (decide (q = p)) as [->|Hne].
        - rewrite lookup_insert_eq, Hsc. reflexivity.
        - rewrite lookup_insert_ne by congruence. reflexivity. }
      destruct (Client sc) as [c|] eqn:Hc; cbn;
        eexists _, _; (split; [reflexivity|]); cbn;
        (split; [reflexivity|]); (split; [exact Hsame|]);
        (split; [exact Hmono|]);
        (split; [intros q [= <-]; unfold kill_ready; cbn;
                 rewrite lookup_insert_eq; cbn; apply bool_decide_eq_true;
                 destruct (KillChannel sc); discriminate|]);
        (split; [rewrite <- ?app_assoc; reflexivity|]);
        (split; [reflexivity|]); (split; [|reflexivity]);
        intros q sc0 c0 [= <-] Hsc0 Hc0; rewrite Hsc in Hsc0;
        injection Hsc0 as <-; rewrite Hc in Hc0; [|discriminate].
      injection Hc0 as <-. left.
    + assert (kill_ready p w = true) as Hready.
      { unfold kill_ready. rewrite Hsc. apply bool_decide_eq_true.
        destruct (KillChannel sc); [cbn in Hlen; lia | discriminate]. }
      destruct (Client sc) as [c|] eqn:Hc; cbn;
        eexists _, _; (split; [reflexivity|]); cbn;
        (split; [reflexivity|]); (split; [intros q; reflexivity|]);
        (split; [auto|]); (split; [intros q [= <-]; exact Hready|]);
        (split; [rewrite <- ?app_assoc; reflexivity|]);
        (split; [reflexivity|]); (split; [|reflexivity]);
        intros q sc0 c0 [= <-] Hsc0 Hc0; rewrite Hsc in Hsc0;
        injection Hsc0 as <-; rewrite Hc in Hc0; [|discriminate].
      injection Hc0 as <-. left.
  - exists w, []. rewrite (delete_id _ _ Hp), app_nil_r.
    repeat split; auto; discriminate.
Qed.

Lemma registry_wf_step (w w' : world) (sessionID : SessionID) :
  registry_wf w ->
  sessions w' = delete sessionID (sessions w) ->
  same_clients w w' ->
  registry_wf w'.
Proof.
  intros Hwf Hs Hsame id p Hp. rewrite Hs in Hp.
  apply lookup_delete_Some in Hp as [_ Hp].
  destruct (Hwf _ _ Hp) as [sc Hsc]. specialize (Hsame p).
  rewrite Hsc in Hsame. destruct (heap w' !! p); [eauto|discriminate].
Qed.

Lemma Shutdown_range_spec (keys : list SessionID) :
  forall w : world,
    registry_wf w ->
    exists w' new,
      Shutdown_range keys w = Done tt w'
      /\ registry_wf w'
      /\ (forall sessionID,
            sessions w' !! sessionID
            = if decide (sessionID ∈ keys) then None else sessions w !! sessionID)
      /\ same_clients w w'
      /\ (forall p, kill_ready p w = true -> kill_ready p w' = true)
      /\ (forall sessionID p,
            sessionID ∈ keys -> sessions w !! sessionID = Some p ->
            kill_ready p w' = true)
      /\ trace w' = trace w ++ new
      /\ spawned new = []
      /\ (forall sessionID p sc c,
            sessionID ∈ keys -> sessions w !! sessionID = Some p ->
            heap w !! p = Some sc -> Client sc = Some c ->
            CallDisconnect c ∈ new)
      /\ sessionRepo w' = sessionRepo w.
Proof.
  induction keys as [|key rest IH]; intros w Hwf.
  - exists w, []. rewrite app_nil_r. split; [reflexivity|].
    repeat split; auto.
    + intros sessionID p Hin. inversion Hin.
    + intros sessionID p sc c Hin. inversion Hin.
  - destruct (cleanupSessionUnsafe_step w key Hwf)
      as (w1 & new1 & Hrun1 & Hs1 & Hsame1 & Hmono1 & Hkill1 & Ht1 & Hsp1
          & Hdis1 & Hrepo1).
    pose proof (registry_wf_step w w1 key Hwf Hs1 Hsame1) as Hwf1.
    destruct (IH w1 Hwf1)
      as (w' & new & Hrun & Hwf' & Hs & Hsame & Hmono & Hkill & Ht & Hsp
          & Hdis & Hrepo).
    exists w', (new1 ++ new).
    split.
    { cbn [Shutdown_range]. unfold bind. rewrite Hrun1. cbn. exact Hrun. }
    split; [exact Hwf'|]. split.
    { intros sessionID. rewrite Hs, Hs1.
      destruct (decide (sessionID ∈ rest)) as [Hin|Hnin].
      - rewrite decide_True by (right; exact Hin). reflexivity.
      - destruct (decide (sessionID = key)) as [->|Hne].
        + rewrite decide_True by left. apply lookup_delete_eq.
        + rewrite decide_False
            by (intros Hin; apply elem_of_cons in Hin as [?|?]; contradiction).
          apply lookup_delete_ne. congruence. }
    split. { intros p. rewrite Hsame. apply Hsame1. }
    split. { auto. }
    split.
    { intros sessionID p Hin Hp.
      destruct (decide (sessionID ∈ rest)) as [Hrest|Hrest].
      - destruct (decide (sessionID = key)) as [->|Hne].
        + apply Hmono, (Hkill1 _ Hp).
        + apply (Hkill sessionID); [exact Hrest|].
          rewrite Hs1. rewrite lookup_delete_ne by congruence. exact Hp.
      - apply elem_of_cons in Hin as [->|Hin]; [|contradiction].
        apply Hmono, (Hkill1 _ Hp). }
    split. { rewrite Ht, Ht1, app_assoc. reflexivity. }
    split. { rewrite spawned_app, Hsp1, Hsp. reflexivity. }
    split; [|congruence].
    intros sessionID p sc c Hin Hp Hsc Hc. apply elem_of_app.
    destruct (decide (sessionID = key)) as [->|Hne].
    + left. exact (Hdis1 _ _ _ Hp Hsc Hc).
    + apply elem_of_cons in Hin as [?|Hin]; [contradiction|]. right.
      specialize (Hsame1 p). rewrite Hsc in Hsame1.
      destruct (heap w1 !! p) as [sc1|] eqn:Hsc1; [|discriminate].
      cbn in Hsame1. injection Hsame1 as Hc1.
      apply (Hdis sessionID p sc1 c Hin); [|exact Hsc1|congruence].
      rewrite Hs1. rewrite lookup_delete_ne by congruence. exact Hp.
Qed.

(** [Shutdown], in a registry whose pointers all point to Workers,
    returns nil and leaves the registry empty; every Worker that was
    registered holds a kill signal afterwards and the client of every
    such Worker has been disconnected.  No goroutine is started and the
    store is not written: the statuses in the store stay as they were. *)
Theorem Shutdown_empties_registry (w : world) :
  registry_wf w ->
  exists w',
    Shutdown w = Done None w'
    /\ sessions w' = ∅
    /\ (forall sessionID p,
          sessions w !! sessionID = Some p -> kill_ready p w' = true)
    /\ (forall sessionID p sc c,
          sessions w !! sessionID = Some p -> heap w !! p = Some sc ->
          Client sc = Some c -> CallDisconnect c ∈ trace w')
    /\ spawned (trace w') = spawned (trace w)
    /\ sessionRepo w' = sessionRepo w.
Proof.
  intros Hwf. unfold Shutdown. run_monad.
  assert (forall sessionID,
            sessionID ∈ (map_to_list (sessions w)).*1
            <-> is_Some (sessions w !! sessionID)) as Hkeys.
  { intros sessionID. rewrite list_elem_of_fmap. split.
    - intros ([sid p] & -> & Hin). apply elem_of_map_to_list in Hin. eauto.
    - intros [p Hp]. exists (sessionID, p). split; [reflexivity|].
      apply elem_of_map_to_list, Hp. }
  destruct (Shutdown_range_spec ((map_to_list (sessions w)).*1)
              (emit (Log Info "Shutting down all sessions" "") (emit Lock w)))
    as (w' & new & Hrun & _ & Hs & _ & _ & Hkill & Ht & Hsp & Hdis & Hrepo).
  { exact Hwf. }
  cbn in Hrun. rewrite Hrun. cbn.
  eexists. split; [reflexivity|]. cbn. split.
  { apply map_empty. intros sessionID. rewrite Hs. cbn.
    destruct (decide (sessionID ∈ (map_to_list (sessions w)).*1)) as [|Hnin];
      [reflexivity|].
    destruct (sessions w !! sessionID) eqn:Hp; [|reflexivity].
    destruct Hnin. apply Hkeys. eauto. }
  split.
  { intros sessionID p Hp. unfold kill_ready. cbn.
    apply (Hkill sessionID p); [apply Hkeys; eauto | exact Hp]. }
  split.
  { intros sessionID p sc c Hp Hsc Hc. rewrite Ht. cbn.
    apply elem_of_app. left. apply elem_of_app. right.
    apply (Hdis sessionID p sc c); [apply Hkeys; eauto|exact Hp|exact Hsc|exact Hc]. }
  split; [|exact Hrepo].
  rewrite Ht. cbn. rewrite !spawned_app, Hsp. cbn. rewrite !app_nil_r.
  reflexivity.
Qed.

(** A check of [registry_wf] that can be computed. *)
Lemma registry_wf_check (w : world) :
  bool_decide (map_Forall (fun _ p => is_Some (heap w !! p)) (sessions w))
  = true ->
  registry_wf w.
Proof.
  intros Hall%bool_decide_eq_true sessionID p Hp. exact (Hall _ _ Hp).
Qed.

(** ** The HTTP handlers *)

Import handlers.

Lemma StartSession_register_error (w w' : world) (sessionID : SessionID)
    (e : error) :
  StartSession_register ext sessionID w = Done (Some e) w' ->
  forall resource id, e <> NotFoundError resource id.
Proof.
  unfold StartSession_register, sessionRepo_GetByID, GetOrCreateDevice,
    whatsmeow_NewClient.
  run_monad. case_bool_decide; cbn; [intros [= <- _]; discriminate|].
  destruct (GetByID (sessionRepo w) sessionID) as [session|err]; cbn;
    [|intros [= <- _]; discriminate].
  destruct (storeManager_GetOrCreateDevice ext sessionID (WAJID session));
    cbn; [discriminate|intros [= <- _]; discriminate].
Qed.

(** The errors of [StartSession] are made by [fmt.Errorf]: none is a
    not-found error itself, though one may wrap the not-found error of the
    store. *)
Lemma StartSession_error (w w' : world) (sessionID : SessionID) (e : error) :
  StartSession ext sessionID w = Done (Some e) w' ->
  forall resource id, e <> NotFoundError resource id.
Proof.
  unfold StartSession. run_monad.
  destruct (sessions w !! sessionID) as [p|]; cbn.
  - destruct (heap w !! p) as [sc|]; cbn; [|discriminate].
    case_bool_decide; cbn; [discriminate|].
    pose proof (cleanupSessionUnsafe_sessions (emit Lock w) sessionID) as _.
    destruct (cleanupSessionUnsafe sessionID (emit Lock w))
      as [a w1|v w1|ready k w1]; cbn; [|discriminate|discriminate].
    destruct (StartSession_register ext sessionID w1) as [[e1|] w2|v w2|]
      eqn:Hreg; cbn; try discriminate.
    intros [= <- _]. exact (StartSession_register_error _ _ _ _ Hreg).
  - destruct (StartSession_register ext sessionID (emit Lock w))
      as [[e1|] w2|v w2|] eqn:Hreg; cbn; try discriminate.
    intros [= <- _]. exact (StartSession_register_error _ _ _ _ Hreg).
Qed.

(** [ConnectSession] answers 200, 400 or 500 and never 404: an error of
    [StartSession] always falls to the default case of the handler's type
    switch.  In particular, for a valid session ID that has no row in the
    store the answer is 500 "Failed to connect session", not 404
    "Session not found". *)
Theorem ConnectSession_never_404 (uuid_Parse : string -> bool) (w : world)
    (sessionIDStr : string) :
  (forall resp w',
     ConnectSession ext uuid_Parse sessionIDStr w = Done resp w' ->
     StatusCode resp = 200%Z \/ StatusCode resp = 400%Z
     \/ StatusCode resp = 500%Z)
  /\ (SessionID_IsValid uuid_Parse sessionIDStr = true ->
      sessions w !! sessionIDStr = None ->
      (Z.of_nat (size (sessions w)) < maxSessions w)%Z ->
      GetByID (sessionRepo w) sessionIDStr
      = inr (ErrSessionNotFound sessionIDStr) ->
      exists w',
        ConnectSession ext uuid_Parse sessionIDStr w
        = Done (http_Error "Failed to connect session" 500) w'
        /\ sessions w' = sessions w).
Proof.
  unfold ConnectSession. split.
  - intros resp w'.
    destruct (SessionID_IsValid uuid_Parse sessionIDStr);
      cbn -[StartSession GetSessionStatus]; [|intros [= <- _]; auto].
    unfold log, do, modify, bind. cbn -[StartSession GetSessionStatus].
    destruct (StartSession ext sessionIDStr
                (emit (Log Info "Session connection requested" sessionIDStr) w))
      as [[e|] w1|v w1|ready k w1] eqn:Hstart;
      cbn -[StartSession GetSessionStatus]; try discriminate.
    + pose proof (StartSession_error _ _ _ _ Hstart) as Hne.
      destruct e; cbn; intros [= <- _]; cbn; auto.
      exfalso. eapply Hne. reflexivity.
    + unfold GetSessionStatus. run_monad.
      destruct (sessions w1 !! sessionIDStr) as [p|]; cbn;
        [destruct (heap w1 !! p); cbn|]; try discriminate;
        intros [= <- _]; auto.
  - intros Hvalid Hnone Hcap Hrow. rewrite Hvalid. cbn.
    unfold StartSession, StartSession_register, sessionRepo_GetByID.
    run_monad. rewrite Hnone. cbn. rewrite bool_decide_false by lia. cbn.
    rewrite Hrow. cbn. eexists. split; reflexivity.
Qed.

(** [LogoutSession] answers 200 with the status "disconnected" for
    every valid session ID, whether or not the session has a Worker or a
    row in the store.  The Worker, if any, is unregistered; the row, if
    any, is written back as disconnected with no QR code, and a failure of
    that write is only logged. *)
Theorem LogoutSession_always_ok (uuid_Parse : string -> bool)
    (sessionRepo_Update : R -> Session -> R * option error)
    (w : world) (sessionIDStr : string) :
  SessionID_IsValid uuid_Parse sessionIDStr = true ->
  registry_wf w ->
  exists w',
    LogoutSession uuid_Parse sessionRepo_Update sessionIDStr w
    = Done (mkResponse 200
              (JSON [("session_id", sessionIDStr);
                     ("status", "disconnected");
                     ("message", "Session logged out successfully")])) w'
    /\ sessions w' = delete sessionIDStr (sessions w)
    /\ sessionRepo w'
       = match GetByID (sessionRepo w) sessionIDStr with
         | inl session =>
             fst (sessionRepo_Update (sessionRepo w) (logged_out session))
         | inr _ => sessionRepo w
         end.
Proof.
  intros Hvalid Hwf. unfold LogoutSession. rewrite Hvalid. cbn.
  unfold StopSession, sessionRepo_GetByID, sessionRepo_Update_call.
  run_monad.
  destruct (cleanupSessionUnsafe_step
              (emit Lock
                 (emit (Log Info "Session logout requested" sessionIDStr) w))
              sessionIDStr)
    as (w1 & new & Hrun & Hs & _ & _ & _ & _ & _ & _ & Hrepo).
  { exact Hwf. }
  cbn in Hrun. rewrite Hrun. cbn. rewrite Hrepo. cbn.
  destruct (GetByID (sessionRepo w) sessionIDStr) as [session|err]; cbn.
  - rewrite Hrepo. cbn.
    destruct (sessionRepo_Update (sessionRepo w) (logged_out session))
      as [r [e|]]; cbn; (eexists; split; [reflexivity|]); cbn; auto.
  - eexists. split; [reflexivity|]. cbn. auto.
Qed.

End Registry.

(** * The properties at concrete registries *)

Import repository scenarios.

Lemma GetSessionStatus_unregistered_witness :
  res_value (GetSessionStatus "a" empty_registry) = Some "disconnected"
  /\ forall (w' : @World sessionRepository) p sc,
       sessions w' !! "a" = Some p ->
       heap w' !! p = Some sc ->
       Status sc = StatusDisconnected ->
       res_value (GetSessionStatus "a" w')
       = res_value (GetSessionStatus "a" empty_registry).
Proof.
  apply (GetSessionStatus_unregistered empty_registry "a"). reflexivity.
Defined.

Lemma StopSession_unregistered_witness :
  exists w', StopSession "b" (registry_a store_abc "connected") = Done None w'
    /\ sessions w' = sessions (registry_a store_abc "connected")
    /\ heap w' = heap (registry_a store_abc "connected")
    /\ spawned (trace w') = spawned (trace (registry_a store_abc "connected")).
Proof.
  apply (StopSession_unregistered (registry_a store_abc "connected") "b").
  vm_compute. reflexivity.
Defined.

Lemma StartSession_connected_noop_witness :
  exists w',
    StartSession ext_ok "a" (registry_a store_abc "connected") = Done None w'
    /\ sessions w' = sessions (registry_a store_abc "connected")
    /\ heap w' = heap (registry_a store_abc "connected")
    /\ next_client w' = next_client (registry_a store_abc "connected")
    /\ spawned (trace w') = spawned (trace (registry_a store_abc "connected")).
Proof.
  apply (StartSession_connected_noop ext_ok (registry_a store_abc "connected")
           "a" 0 (worker paired_device "connected"));
    vm_compute; reflexivity.
Defined.

Lemma StartSession_at_capacity_witness :
  (exists w',
     StartSession ext_ok "new" full_registry
     = Done (Some (MaxSessionsError (maxSessions full_registry))) w'
     /\ sessions w' = sessions full_registry
     /\ heap w' = heap full_registry
     /\ spawned (trace w') = spawned (trace full_registry)
     /\ res_value (GetSessionCount w') = res_value (GetSessionCount full_registry))
  /\ forall (r : sessionRepository) now,
       maxSessions (NewMultiSessionManager r now) = 50%Z.
Proof.
  apply (StartSession_at_capacity ext_ok full_registry "new");
    vm_compute; reflexivity.
Defined.

Lemma GenerateQRCode_cached_witness :
  exists w1 w2,
    GenerateQRCode "c" registry_c = Done ("data:image/png;base64,QUJD", None) w1
    /\ GenerateQRCode "c" w1 = Done ("data:image/png;base64,QUJD", None) w2
    /\ sessionRepo w2 = sessionRepo registry_c
    /\ spawned (trace w2) = spawned (trace registry_c)
    /\ trace w2
       = trace registry_c
         ++ [RLock; RUnlock; CallGetByID "c";
             Log Info "Returning existing QR code" "c";
             RLock; RUnlock; CallGetByID "c";
             Log Info "Returning existing QR code" "c"].
Proof.
  apply (GenerateQRCode_cached registry_c "c" 0 (worker new_device "connecting")
           (row "c" "connecting" "" "data:image/png;base64,QUJD" 3));
    try (vm_compute; reflexivity); discriminate.
Defined.

(** Scenario D: with one session stored as connected with identity
    ["999@ext"] and others that are not, the resumer starts the first
    only. *)
Example connectOnStartup_scenario_D :
  spawned (trace (res_world (drive 4 (connectOnStartup
                                        (NewMultiSessionManager store_abc 0)))))
  = [GoConnectOnStartup; GoStartSession "a"].
Proof. vm_compute. reflexivity. Qed.

Lemma updateSessionStatus_memory_first_witness :
  (exists w1,
     updateSessionStatus "a" "connected" (registry_a store_down "connecting")
     = Done tt w1
     /\ heap w1
        = <[0 := with_LastSeen 10 (with_Status "connected"
                                     (worker paired_device "connecting"))]>
            (heap (registry_a store_down "connecting"))
     /\ sessions w1 = sessions (registry_a store_down "connecting")
     /\ sessionRepo w1 = store_down
     /\ spawned (trace w1) = [GoUpdateStatus "a" "connected"])
  /\ forall w2 : @World sessionRepository,
       exists w3, run ext_ok (GoUpdateStatus "a" "connected") w2 = Done tt w3
         /\ sessions w3 = sessions w2
         /\ heap w3 = heap w2
         /\ trace w3
            = trace w2
              ++ [CallUpdateStatus "a" (toDomainStatus "connected");
                  match snd (domain.UpdateStatus (sessionRepo w2) "a"
                               (toDomainStatus "connected")) with
                  | Some _ =>
                      Log Error "Failed to update session status in database" "a"
                  | None =>
                      Log Info "Session status updated in database" "a"
                  end].
Proof.
  destruct (updateSessionStatus_memory_first ext_ok
              (registry_a store_down "connecting") "a" "connected")
    as (Hregistered & _ & Hwrite).
  split; [|exact Hwrite].
  apply (Hregistered 0 (worker paired_device "connecting"));
    vm_compute; reflexivity.
Defined.

(** The transition a stopped worker makes at its exit is dropped.  A
    paired Worker connects and parks; [StopSession] removes it from the
    registry, time passes, and the worker wakes up and ends: its Worker
    still has the status "connecting" and the last-activity time of that
    first transition, and the only write to the store that was started is
    the one for "connecting". *)
Lemma updateSessionStatus_dropped_after_stop :
  let parked := run ext_ok (GoHandleSessionConnection "a" 0)
                  (registry_a store_abc "disconnected") in
  let ended :=
    resume (interfere (fun w => set_clock 20 (res_world (StopSession "a" w)))
              parked) in
  res_value ended = Some tt
  /\ clock (res_world ended) = 20%Z
  /\ heap (res_world ended) !! 0
     = Some (mkSessionClient (Some 0) (Some paired_device) [] "connecting" 10)
  /\ spawned (trace (res_world ended)) = [GoUpdateStatus "a" "connecting"]
  /\ updateSessionStatus "a" "disconnected" (res_world ended)
     = Done tt (emit Unlock (emit Lock (res_world ended))).
Proof. cbv zeta. repeat split; vm_compute; reflexivity. Qed.



(** A Worker that connects, is stopped by [StopSession] while it is
    parked, and wakes up: the client is disconnected by [StopSession]
    and again by the worker, whose last status update finds no Worker
    in the registry. *)
Example worker_stopped_while_parked :
  let parked := run ext_ok (GoHandleSessionConnection "a" 0)
                  (registry_a store_abc "disconnected") in
  let stopped := interfere (fun w => res_world (StopSession "a" w)) parked in
  res_value parked = None
  /\ res_value (resume parked) = None
  /\ res_value (resume stopped) = Some tt
  /\ trace (res_world (resume stopped))
     = [Lock; Go (GoUpdateStatus "a" "connecting"); Unlock;
        CallAddEventHandler 0;
        Log Info "Device has stored ID, attempting direct connection" "a";
        CallConnect 0;
        Lock; CallDisconnect 0; Log Info "Session cleaned up" "a"; Unlock;
        Log Info "Session received kill signal" "a";
        CallDisconnect 0;
        Lock; Unlock].
Proof. cbv zeta. repeat split; vm_compute; reflexivity. Qed.

(** In the QR pairing loop a "timeout" event leaves the Worker's status
    at "connecting", not "error", and a "success" event leaves it at
    "connecting", not "connected". *)
Lemma handleQREvent_no_status_transition :
  (let r := handleQREvent ext_ok "c" (mkQRItem "timeout" "") registry_c in
   res_value r = Some false
   /\ Status <$> heap (res_world r) !! 0 = Some "connecting"
   /\ Status <$> heap (res_world r) !! 0 <> Some "error")
  /\ (let r := handleQREvent ext_ok "c" (mkQRItem "success" "") registry_c in
      res_value r = Some false
      /\ Status <$> heap (res_world r) !! 0 = Some "connecting"
      /\ Status <$> heap (res_world r) !! 0 <> Some "connected").
Proof.
  cbv zeta.
  repeat split; try (vm_compute; reflexivity); vm_compute; discriminate.
Qed.

Lemma handleQREvent_effects_witness :
  exists w',
    handleQREvent ext_ok "c" (mkQRItem "code" "2@abc") registry_c = Done true w'
    /\ sessionRepo w'
       = fst (domain.SetQRCode store_abc "c" "data:image/png;base64,2@abc").
Proof.
  destruct (handleQREvent_effects ext_ok registry_c "c" (mkQRItem "code" "2@abc"))
    as (Hcode & _).
  apply (Hcode eq_refl "2@abc" eq_refl).
Defined.

(** The code written by a "code" event is what the next
    [GenerateQRCode] reads from the store. *)
Example code_event_then_read :
  stored_QRCode
    (sessionRepo (res_world (handleQREvent ext_ok "c"
                               (mkQRItem "code" "2@abc") registry_c))) "c"
  = Some "data:image/png;base64,2@abc".
Proof. vm_compute. reflexivity. Qed.

(** A first request for the QR code of a session with no stored code
    starts the pairing goroutine and sleeps; it returns the code when the
    goroutine has stored one by the time it wakes up, and an error
    otherwise. *)
Example GenerateQRCode_first_request :
  let asleep := GenerateQRCode "b" registry_b in
  let pairing w := res_world (run ext_one_code (GoHandleQRCodeGeneration "b" 0) w) in
  res_value asleep = None
  /\ spawned (trace (res_world asleep)) = [GoHandleQRCodeGeneration "b" 0]
  /\ res_value (resume (interfere pairing asleep))
     = Some ("data:image/png;base64,2@abc", None)
  /\ res_value (resume asleep)
     = Some ("", Some (Errorf
         "QR code is being generated, please try again in a few seconds")).
Proof. cbv zeta. repeat split; vm_compute; reflexivity. Qed.

(** [StartSession] for a session that is not registered reads the session
    row and retrieves the device while it holds the mutex. *)
Lemma StartSession_blocking_calls_under_lock :
  calls_under_lock false
    (trace (res_world (StartSession ext_ok "b" empty_registry)))
  = [CallGetByID "b"; CallGetOrCreateDevice "b" ""]
  /\ calls_under_lock false
       (trace (res_world (StartSession ext_ok "b" empty_registry)))
     <> [].
Proof. split; [vm_compute; reflexivity | vm_compute; discriminate]. Qed.

Lemma StartSession_lock_discipline_witness :
  exists new,
    trace (res_world (StartSession ext_ok "b" empty_registry))
    = trace empty_registry ++ new
    /\ calls_under_lock false new
       = match domain.GetByID store_abc "b" with
         | inl session =>
             [CallGetByID "b"; CallGetOrCreateDevice "b" (WAJID session)]
         | inr _ => [CallGetByID "b"]
         end.
Proof.
  destruct (StartSession_lock_discipline ext_ok empty_registry "b")
    as (_ & Hread & _).
  apply Hread; vm_compute; reflexivity.
Defined.

(** * Properties of the repository *)

Lemma find_has_id_None (id : SessionID) (tbl : list Session) :
  find (has_id id) tbl = None ->
  filter (fun s => has_id id s = true) tbl = [].
Proof.
  induction tbl as [|s tbl IH]; [reflexivity|]. cbn [find].
  destruct (has_id id s) eqn:Hs; [discriminate|]. intros Hnone.
  rewrite filter_cons_False by (rewrite Hs; discriminate). auto.
Qed.

Lemma find_has_id_Some (id : SessionID) (tbl : list Session) (s : Session) :
  find (has_id id) tbl = Some s ->
  filter (fun s => has_id id s = true) tbl <> [].
Proof.
  induction tbl as [|t tbl IH]; [discriminate|]. cbn [find].
  destruct (has_id id t) eqn:Ht.
  - intros _. rewrite filter_cons_True by exact Ht. discriminate.
  - intros Hfind. rewrite filter_cons_False by (rewrite Ht; discriminate). auto.
Qed.

Lemma GetByID_not_found (r : sessionRepository) (id : SessionID) :
  GetByID r id = inr (ErrSessionNotFound id) ->
  db_failure r = None /\ find (has_id id) (rows r) = None.
Proof.
  unfold GetByID. destruct (db_failure r); [discriminate|].
  destruct (find (has_id id) (rows r)); [discriminate|]. auto.
Qed.

Lemma GetByID_found (r : sessionRepository) (id : SessionID) (s : Session) :
  GetByID r id = inl s ->
  db_failure r = None /\ find (has_id id) (rows r) = Some s.
Proof.
  unfold GetByID. destruct (db_failure r); [discriminate|].
  destruct (find (has_id id) (rows r)); [|discriminate].
  intros [= ->]. auto.
Qed.

Lemma exec_update_missing (what : string) (id : SessionID)
    (f : Z -> Session -> Session) (r : sessionRepository) :
  GetByID r id = inr (ErrSessionNotFound id) ->
  exec_update what id f r = (r, Some (ErrSessionNotFound id)).
Proof.
  intros Hget. apply GetByID_not_found in Hget as [Hdb Hfind].
  unfold exec_update, update_where_id. rewrite Hdb.
  rewrite (find_has_id_None _ _ Hfind). reflexivity.
Qed.

(** Every write to a session that has no row (status, WAJID, QR code,
    whole-row update, delete) returns the not-found error of that session
    and leaves the store as it is; [ExistsByID] answers false. *)
Theorem repository_write_to_missing_session (r : sessionRepository)
    (id : SessionID) (st : domain.Status) (value : string) (sess : Session) :
  GetByID r id = inr (ErrSessionNotFound id) ->
  UpdateStatus r id st = (r, Some (ErrSessionNotFound id))
  /\ SetWAJID r id value = (r, Some (ErrSessionNotFound id))
  /\ SetQRCode r id value = (r, Some (ErrSessionNotFound id))
  /\ ClearQRCode r id = (r, Some (ErrSessionNotFound id))
  /\ (ID sess = id -> Update r sess = (r, Some (ErrSessionNotFound id)))
  /\ Delete r id = (r, Some (ErrSessionNotFound id))
  /\ ExistsByID r id = (false, None).
Proof.
  intros Hget.
  repeat split; try (apply exec_update_missing; exact Hget).
  - intros <-. apply exec_update_missing. exact Hget.
  - apply GetByID_not_found in Hget as [Hdb Hfind]. unfold Delete.
    rewrite Hdb, (find_has_id_None _ _ Hfind). reflexivity.
  - apply GetByID_not_found in Hget as [Hdb Hfind]. unfold ExistsByID.
    rewrite Hdb, (find_has_id_None _ _ Hfind). reflexivity.
Qed.

Lemma find_update_same (id : SessionID) (f : Session -> Session)
    (tbl : list Session) (s : Session) :
  (forall t, ID (f t) = ID t) ->
  find (has_id id) tbl = Some s ->
  find (has_id id) (map (fun t => if has_id id t then f t else t) tbl)
  = Some (f s).
Proof.
  intros Hid. induction tbl as [|t tbl IH]; [discriminate|]. cbn.
  destruct (has_id id t) eqn:Ht.
  - intros [= ->]. unfold has_id in *. rewrite Hid, Ht. reflexivity.
  - rewrite Ht. exact IH.
Qed.

Lemma find_update_other (id id' : SessionID) (f : Session -> Session)
    (tbl : list Session) :
  (forall t, ID (f t) = ID t) ->
  id' <> id ->
  find (has_id id') (map (fun t => if has_id id t then f t else t) tbl)
  = find (has_id id') tbl.
Proof.
  intros Hid Hne. induction tbl as [|t tbl IH]; [reflexivity|]. cbn.
  destruct (has_id id t) eqn:Ht.
  - unfold has_id in *. rewrite Hid. apply bool_decide_eq_true in Ht.
    rewrite (bool_decide_false (ID t = id')) by congruence. exact IH.
  - rewrite IH. reflexivity.
Qed.

Lemma exec_update_found (what : string) (id : SessionID)
    (f : Z -> Session -> Session) (r : sessionRepository) (s : Session) :
  (forall now t, ID (f now t) = ID t) ->
  GetByID r id = inl s ->
  exists r',
    exec_update what id f r = (r', None)
    /\ GetByID r' id = inl (f (db_now r) s)
    /\ forall id', id' <> id -> GetByID r' id' = GetByID r id'.
Proof.
  intros Hid Hget. apply GetByID_found in Hget as [Hdb Hfind].
  unfold exec_update, update_where_id. rewrite Hdb.
  pose proof (find_has_id_Some _ _ _ Hfind) as Hne.
  destruct (filter (fun s => has_id id s = true) (rows r)) as [|x l] eqn:Hf;
    [congruence|].
  cbn. eexists. split; [reflexivity|]. unfold GetByID. cbn. rewrite Hdb. split.
  - rewrite (find_update_same id (f (db_now r)) (rows r) s (Hid _) Hfind).
    reflexivity.
  - intros id' Hne'.
    rewrite (find_update_other id id' (f (db_now r)) (rows r) (Hid _) Hne').
    reflexivity.
Qed.

(** A write to a session that has a row succeeds, and the next read of
    the session returns the row with the written field and the time of
    the write, its other fields untouched; the rows of all other sessions
    read as before.  This holds for the QR code, the status and the
    WAJID. *)
Theorem repository_write_then_read (r : sessionRepository) (id : SessionID)
    (s : Session) (value : string) :
  GetByID r id = inl s ->
  (exists r',
     SetQRCode r id value = (r', None)
     /\ GetByID r' id = inl (set_qr_code value (db_now r) s)
     /\ forall id', id' <> id -> GetByID r' id' = GetByID r id')
  /\ (exists r',
        UpdateStatus r id value = (r', None)
        /\ GetByID r' id = inl (set_status value (db_now r) s)
        /\ forall id', id' <> id -> GetByID r' id' = GetByID r id')
  /\ (exists r',
        SetWAJID r id value = (r', None)
        /\ GetByID r' id = inl (set_wa_jid value (db_now r) s)
        /\ forall id', id' <> id -> GetByID r' id' = GetByID r id').
Proof.
  intros Hget. repeat split.
  - apply (exec_update_found _ id (set_qr_code value) r s); [reflexivity|exact Hget].
  - apply (exec_update_found _ id (set_status value) r s); [reflexivity|exact Hget].
  - apply (exec_update_found _ id (set_wa_jid value) r s); [reflexivity|exact Hget].
Qed.

Lemma insert_desc_perm (s : Session) (l : list Session) :
  insert_desc s l ≡ₚ s :: l.
Proof.
  induction l as [|t l IH]; [reflexivity|]. cbn.
  destruct (CreatedAt t <=? CreatedAt s)%Z; [reflexivity|].
  rewrite IH. apply Permutation_swap.
Qed.

Lemma order_created_desc_perm (l : list Session) : order_created_desc l ≡ₚ l.
Proof.
  induction l as [|s l IH]; [reflexivity|]. cbn.
  rewrite insert_desc_perm. f_equiv. exact IH.
Qed.

Lemma insert_desc_sorted (s : Session) (l : list Session) :
  StronglySorted (fun a b => (CreatedAt b <= CreatedAt a)%Z) l ->
  StronglySorted (fun a b => (CreatedAt b <= CreatedAt a)%Z) (insert_desc s l).
Proof.
  induction l as [|t l IH]; intros Hsorted.
  - cbn. repeat constructor.
  - cbn. apply StronglySorted_inv in Hsorted as [Hl Ht].
    destruct (CreatedAt t <=? CreatedAt s)%Z eqn:Hle.
    + apply Z.leb_le in Hle. constructor; [constructor; assumption|].
      constructor; [exact Hle|].
      eapply Forall_impl; [exact Ht|]. cbn. intros x Hx. lia.
    + apply Z.leb_gt in Hle. constructor; [apply IH, Hl|].
      rewrite insert_desc_perm. constructor; [lia|exact Ht].
Qed.

(** With the database up, [GetConnectedSessions] returns the rows whose
    status is "connected", each with its multiplicity in the table, the
    most recently created first; with the database down it returns the
    driver's error wrapped. *)
Theorem GetConnectedSessions_newest_first (r : sessionRepository) :
  match db_failure r with
  | None =>
      exists l,
        GetConnectedSessions r = inl l
        /\ l ≡ₚ filter (fun s => Status_ s = "connected") (rows r)
        /\ StronglySorted (fun a b => (CreatedAt b <= CreatedAt a)%Z) l
        /\ forall s, s ∈ l <-> s ∈ rows r /\ Status_ s = "connected"
  | Some e =>
      GetConnectedSessions r
      = inr (Wrapf "failed to get sessions by status" (DriverError e))
  end.
Proof.
  unfold GetConnectedSessions, GetByStatus.
  destruct (db_failure r) as [e|]; [reflexivity|].
  eexists. split; [reflexivity|]. split; [apply order_created_desc_perm|].
  split.
  - unfold order_created_desc.
    induction (filter (fun s => Status_ s = domain.StatusConnected) (rows r))
      as [|s l IH]; [constructor|].
    cbn. apply insert_desc_sorted, IH.
  - intros s. rewrite order_created_desc_perm, list_elem_of_filter. tauto.
Qed.

Lemma find_has_id_ID (id : SessionID) (tbl : list Session) (s : Session) :
  find (has_id id) tbl = Some s -> ID s = id.
Proof.
  intros Hfind. apply find_some in Hfind as [_ Hid].
  apply bool_decide_eq_true in Hid. exact Hid.
Qed.

Lemma find_map_keeping_ID (id : SessionID) (g : Session -> Session)
    (tbl : list Session) :
  (forall t, ID (g t) = ID t) ->
  find (has_id id) (map g tbl) = g <$> find (has_id id) tbl.
Proof.
  intros Hid. induction tbl as [|t tbl IH]; [reflexivity|]. cbn.
  unfold has_id at 1. rewrite Hid. fold (has_id id t).
  destruct (has_id id t); [reflexivity|exact IH].
Qed.

(** [BulkUpdateStatus] with an empty list of IDs returns nil without
    reaching the database, even when the database is down.  With IDs and
    the database up it returns nil whether or not any row matches: each
    session whose ID is in the list then reads with the new status, every
    other session reads as before, and an ID with no row is not
    reported. *)
Theorem BulkUpdateStatus_effects (r : sessionRepository)
    (ids : list SessionID) (st : domain.Status) :
  BulkUpdateStatus r [] st = (r, None)
  /\ (ids <> [] -> db_failure r = None ->
      exists r',
        BulkUpdateStatus r ids st = (r', None)
        /\ forall id,
             GetByID r' id
             = match GetByID r id with
               | inl s =>
                   inl (if bool_decide (id ∈ ids)
                        then set_status st (db_now r) s else s)
               | inr e => inr e
               end).
Proof.
  split; [reflexivity|]. intros Hne Hdb. unfold BulkUpdateStatus.
  rewrite bool_decide_false by (destruct ids; [congruence|discriminate]).
  rewrite Hdb. eexists. split; [reflexivity|]. intros id.
  unfold GetByID. cbn. rewrite Hdb.
  rewrite find_map_keeping_ID
    by (intros t; destruct (bool_decide (ID t ∈ ids)); reflexivity).
  destruct (find (has_id id) (rows r)) as [s|] eqn:Hfind; [|reflexivity].
  cbn. rewrite (find_has_id_ID _ _ _ Hfind). reflexivity.
Qed.

Lemma find_filter_out_same (id : SessionID) (tbl : list Session) :
  find (has_id id) (filter (fun s => has_id id s = false) tbl) = None.
Proof.
  induction tbl as [|t tbl IH]; [reflexivity|].
  destruct (has_id id t) eqn:Ht.
  - rewrite filter_cons_False by (rewrite Ht; discriminate). exact IH.
  - rewrite filter_cons_True by exact Ht. cbn [find]. rewrite Ht. exact IH.
Qed.

Lemma find_filter_out_other (id id' : SessionID) (tbl : list Session) :
  id' <> id ->
  find (has_id id') (filter (fun s => has_id id s = false) tbl)
  = find (has_id id') tbl.
Proof.
  intros Hne. induction tbl as [|t tbl IH]; [reflexivity|].
  destruct (has_id id t) eqn:Ht.
  - rewrite filter_cons_False by (rewrite Ht; discriminate). cbn [find].
    assert (has_id id' t = false) as Ht'.
    { apply bool_decide_eq_false. apply bool_decide_eq_true in Ht. congruence. }
    rewrite Ht'. exact IH.
  - rewrite filter_cons_True by exact Ht. cbn [find]. rewrite IH. reflexivity.
Qed.

(** [Delete] of a session that has a row succeeds; afterwards the
    session is not found, [ExistsByID] (true before) answers false, and
    the other sessions read as before. *)
Theorem Delete_then_read (r : sessionRepository) (id : SessionID) (s : Session) :
  GetByID r id = inl s ->
  ExistsByID r id = (true, None)
  /\ exists r',
       Delete r id = (r', None)
       /\ GetByID r' id = inr (ErrSessionNotFound id)
       /\ ExistsByID r' id = (false, None)
       /\ forall id', id' <> id -> GetByID r' id' = GetByID r id'.
Proof.
  intros Hget. apply GetByID_found in Hget as [Hdb Hfind].
  pose proof (find_has_id_Some _ _ _ Hfind) as Hne.
  unfold ExistsByID, Delete. rewrite Hdb.
  destruct (filter (fun s => has_id id s = true) (rows r)) as [|x l] eqn:Hf;
    [congruence|].
  split; [cbn; rewrite bool_decide_true by lia; reflexivity|].
  cbn. eexists. split; [reflexivity|]. unfold GetByID. cbn.
  rewrite find_filter_out_same. split; [reflexivity|].
  rewrite (find_has_id_None id _ (find_filter_out_same id (rows r))).
  split; [reflexivity|].
  intros id' Hne'. rewrite Hdb, (find_filter_out_other id id' _ Hne').
  reflexivity.
Qed.

(** * Properties of the device cache *)

Import storemanager.

(** On a cache hit [GetOrCreateDevice] returns the cached device whatever
    the JID it is given, even at the limit, and leaves the cache as it
    is: the container is not asked. *)
Theorem GetOrCreateDevice_cache_hit (wsm : WhatsAppStoreManager)
    (sessionID : SessionID) (device : store_Device) :
  devices wsm !! sessionID = Some device ->
  forall jid,
    fst (GetOrCreateDevice wsm sessionID jid) = inl device
    /\ devices (snd (GetOrCreateDevice wsm sessionID jid)) = devices wsm.
Proof.
  intros Hd jid. unfold GetOrCreateDevice. rewrite Hd. cbn. auto.
Qed.

(** Below the limit [GetOrCreateDevice] does not fail for a session that
    is not cached: a JID that does not parse or an error of the container
    is only logged, and a new device is made instead.  The device
    returned is cached, so that [GetDevice] finds it, and it is either
    the device the container has stored for the JID or a new one. *)
Theorem GetOrCreateDevice_below_limit (wsm : WhatsAppStoreManager)
    (sessionID : SessionID) (jid : string) :
  devices wsm !! sessionID = None ->
  (Z.of_nat (size (devices wsm)) < maxDevices wsm)%Z ->
  exists device,
    fst (GetOrCreateDevice wsm sessionID jid) = inl device
    /\ devices (snd (GetOrCreateDevice wsm sessionID jid))
       = <[sessionID := device]> (devices wsm)
    /\ GetDevice (snd (GetOrCreateDevice wsm sessionID jid)) sessionID
       = (Some device, true)
    /\ (if bool_decide (jid = "") then
          device = container_NewDevice (container wsm)
        else
          match restoreDevice wsm jid with
          | inl (Some stored) => device = stored
          | _ => device = container_NewDevice (container wsm)
          end).
Proof.
  intros Hd Hlt. unfold GetOrCreateDevice, GetDevice. rewrite Hd.
  rewrite bool_decide_false by lia.
  destruct (decide (jid = "")) as [->|Hjid].
  - rewrite (bool_decide_false ("" <> "")) by (intros Hne; by apply Hne).
    rewrite (bool_decide_true ("" = "")) by reflexivity. cbn.
    eexists. split; [reflexivity|]. split; [reflexivity|].
    split; [|reflexivity]. by rewrite lookup_insert_eq.
  - rewrite (bool_decide_true (jid <> "")) by assumption.
    rewrite (bool_decide_false (jid = "")) by assumption.
    destruct (restoreDevice wsm jid) as [[stored|]|err]; cbn;
      (eexists; split; [reflexivity|]; split; [reflexivity|];
       split; [|reflexivity]; by rewrite lookup_insert_eq).
Qed.

(** The cache never grows over its limit: [GetOrCreateDevice] and
    [RemoveDevice] keep the size within the limit, and do not change the
    limit; at the limit a session that is not cached gets the error and
    the manager is left as it was. *)
Theorem GetOrCreateDevice_within_limit (wsm : WhatsAppStoreManager)
    (sessionID : SessionID) (jid : string) :
  within_limit wsm ->
  within_limit (snd (GetOrCreateDevice wsm sessionID jid))
  /\ within_limit (RemoveDevice wsm sessionID)
  /\ (devices wsm !! sessionID = None ->
      (Z.of_nat (size (devices wsm)) >= maxDevices wsm)%Z ->
      GetOrCreateDevice wsm sessionID jid
      = (inr (Errorf ("maximum number of devices ("
                        +:+ pretty (maxDevices wsm) +:+ ") reached")), wsm)).
Proof.
  unfold within_limit. intros Hwl. split; [|split].
  - unfold GetOrCreateDevice.
    destruct (devices wsm !! sessionID) as [device|] eqn:Hd; cbn; [exact Hwl|].
    case_bool_decide as Hfull; cbn; [exact Hwl|].
    case_bool_decide;
      [destruct (restoreDevice wsm jid) as [[stored|]|err]|];
      cbn -[size Z.of_nat]; rewrite map_size_insert, Hd; lia.
  - unfold RemoveDevice.
    destruct (devices wsm !! sessionID) as [device|] eqn:Hd; cbn; [|exact Hwl].
    rewrite map_size_delete, Hd. cbn -[Z.of_nat]. lia.
  - intros Hd Hfull. unfold GetOrCreateDevice. rewrite Hd.
    by rewrite bool_decide_true by assumption.
Qed.

(** After [RemoveDevice] the session has no cached device, and the
    devices of the other sessions are where they were. *)
Theorem RemoveDevice_then_GetDevice (wsm : WhatsAppStoreManager)
    (sessionID other : SessionID) :
  GetDevice (RemoveDevice wsm sessionID) sessionID = (None, false)
  /\ (other <> sessionID ->
      GetDevice (RemoveDevice wsm sessionID) other = GetDevice wsm other).
Proof.
  unfold GetDevice, RemoveDevice. split.
  - destruct (devices wsm !! sessionID) as [device|] eqn:Hd; cbn.
    + by rewrite lookup_delete_eq.
    + by rewrite Hd.
  - intros Hne.
    destruct (devices wsm !! sessionID) as [device|] eqn:Hd; cbn; [|done].
    by rewrite lookup_delete_ne.
Qed.

(** * Properties of the phone number parser *)

Import handlers.

Lemma cleanPhone_all_digits (phone : string) :
  all_digits (cleanPhone phone) = true.
Proof.
  induction phone as [|char rest IH]; cbn; [done|].
  destruct (is_digit char) eqn:Hc; cbn; [|exact IH].
  rewrite Hc. exact IH.
Qed.

Lemma cleanPhone_fixed (s : string) :
  all_digits s = true -> cleanPhone s = s.
Proof.
  induction s as [|char rest IH]; cbn; [done|].
  intros [Hc Hrest]%andb_true_iff. rewrite Hc. by rewrite IH.
Qed.

Lemma cleanPhone_app (a b : string) :
  cleanPhone (a +:+ b) = cleanPhone a +:+ cleanPhone b.
Proof.
  induction a as [|char rest IH]; simpl; [done|].
  destruct (is_digit char); simpl; by rewrite IH.
Qed.

(** The JID [parsePhoneToJID] returns is on the server of individual
    chats, and its user part is made of digits only, at least ten of
    them; the user part parses to the same JID again. *)
Theorem parsePhoneToJID_ok (phone : string) (jid : JID) :
  parsePhoneToJID phone = inl jid ->
  Server jid = "s.whatsapp.net"
  /\ all_digits (User jid) = true
  /\ 10 <= String.length (User jid)
  /\ parsePhoneToJID (User jid) = inl jid.
Proof.
  unfold parsePhoneToJID.
  destruct (String.length (cleanPhone phone) <? 10) eqn:Hlen; [discriminate|].
  intros [= <-]. cbn [Server User].
  pose proof (cleanPhone_all_digits phone) as Hall.
  apply Nat.ltb_ge in Hlen.
  repeat split; [exact Hall|exact Hlen|].
  rewrite (cleanPhone_fixed _ Hall).
  apply Nat.ltb_ge in Hlen. by rewrite Hlen.
Qed.

(** A character that is not a digit (a space, a dash, a plus sign, at the
    head of the phone number or inside it) has no effect on the JID: with
    or without it, the phone number is refused or gives the same JID. *)
Theorem parsePhoneToJID_ignores_separators (a b : string)
    (char : Ascii.ascii) :
  is_digit char = false ->
  match parsePhoneToJID (a +:+ String.String char b),
        parsePhoneToJID (a +:+ b) with
  | inl jid1, inl jid2 => jid1 = jid2
  | inr _, inr _ => True
  | _, _ => False
  end.
Proof.
  intros Hc. unfold parsePhoneToJID. rewrite !cleanPhone_app. cbn [cleanPhone].
  rewrite Hc.
  by destruct (String.length (cleanPhone a +:+ cleanPhone b) <? 10).
Qed.

(** * The further properties at concrete inputs *)

Lemma StartSession_registers_witness :
  exists w' p,
    StartSession ext_ok "b" empty_registry = Done None w'
    /\ heap empty_registry !! p = None
    /\ sessions w' = <["b" := p]> (sessions empty_registry)
    /\ heap w'
       = <[p := mkSessionClient (Some (next_client empty_registry))
                  (Some new_device) [] "disconnected" (clock empty_registry)]>
           (heap empty_registry)
    /\ size (sessions w') = S (size (sessions empty_registry))
    /\ next_client w' = S (next_client empty_registry)
    /\ sessionRepo w' = sessionRepo empty_registry
    /\ spawned (trace w')
       = spawned (trace empty_registry) ++ [GoHandleSessionConnection "b" p].
Proof.
  apply (StartSession_registers ext_ok empty_registry "b"
           (row "b" "disconnected" "" "" 2) new_device);
    vm_compute; reflexivity.
Defined.

Lemma StartSession_lookup_failure_witness :
  exists w',
    StartSession ext_ok "zzz" empty_registry
    = Done (Some (Wrapf "failed to get session from database"
                    (ErrSessionNotFound "zzz"))) w'
    /\ sessions w' = sessions empty_registry
    /\ heap w' = heap empty_registry
    /\ next_client w' = next_client empty_registry
    /\ trace w' = trace empty_registry ++ [Lock; CallGetByID "zzz"; Unlock].
Proof.
  refine (proj1 (StartSession_lookup_failure ext_ok empty_registry "zzz" _ _)
            (ErrSessionNotFound "zzz") _);
    vm_compute; reflexivity.
Defined.

Lemma StartSession_failed_restart_unregisters_witness :
  exists w',
    StartSession ext_ok "a" (registry_a store_down "connecting")
    = Done (Some (Wrapf "failed to get session from database"
                    (Wrapf "failed to get session"
                       (DriverError "connection refused")))) w'
    /\ sessions w' = delete "a" (sessions (registry_a store_down "connecting"))
    /\ heap w'
       = <[0 := with_KillChannel [true] (worker paired_device "connecting")]>
           (heap (registry_a store_down "connecting"))
    /\ trace w'
       = trace (registry_a store_down "connecting")
         ++ [Lock; CallDisconnect 0; Log Info "Session cleaned up" "a";
             CallGetByID "a"; Unlock].
Proof.
  apply (StartSession_failed_restart_unregisters ext_ok
           (registry_a store_down "connecting") "a" 0
           (worker paired_device "connecting") 0
           (Wrapf "failed to get session" (DriverError "connection refused")));
    try (vm_compute; reflexivity); discriminate.
Defined.

Lemma StartSession_restart_replaces_witness :
  exists w' p',
    StartSession ext_ok "a" (registry_a store_abc "connecting") = Done None w'
    /\ p' <> 0
    /\ sessions w' = <["a" := p']> (sessions (registry_a store_abc "connecting"))
    /\ heap w'
       = <[p' := mkSessionClient
                   (Some (next_client (registry_a store_abc "connecting")))
                   (Some paired_device) [] "disconnected"
                   (clock (registry_a store_abc "connecting"))]>
           (<[0 := with_KillChannel [true] (worker paired_device "connecting")]>
              (heap (registry_a store_abc "connecting")))
    /\ size (sessions w') = size (sessions (registry_a store_abc "connecting"))
    /\ trace w'
       = trace (registry_a store_abc "connecting")
         ++ [Lock; CallDisconnect 0; Log Info "Session cleaned up" "a";
             CallGetByID "a";
             CallGetOrCreateDevice "a" (WAJID (row "a" "connected" "999@ext" "" 1));
             CallNewClient (next_client (registry_a store_abc "connecting"));
             Go (GoHandleSessionConnection "a" p');
             Log Info "Session started" "a"; Unlock].
Proof.
  apply (StartSession_restart_replaces ext_ok
           (registry_a store_abc "connecting") "a" 0
           (worker paired_device "connecting") 0
           (row "a" "connected" "999@ext" "" 1) paired_device);
    try (vm_compute; reflexivity); discriminate.
Defined.

Lemma StartSession_keeps_limit_witness :
  (Z.of_nat (size (sessions (res_world (StartSession ext_ok "new" full_registry))))
   <= maxSessions full_registry)%Z
  /\ maxSessions (res_world (StartSession ext_ok "new" full_registry))
     = maxSessions full_registry.
Proof.
  apply (StartSession_keeps_limit ext_ok full_registry "new").
  vm_compute. discriminate.
Defined.

Lemma StopSession_registered_witness :
  exists w' sc',
    StopSession "a" (registry_a store_abc "connected") = Done None w'
    /\ sessions w' = delete "a" (sessions (registry_a store_abc "connected"))
    /\ heap w' !! 0 = Some sc'
    /\ (forall q, q <> 0 ->
          heap w' !! q = heap (registry_a store_abc "connected") !! q)
    /\ Client sc' = Client (worker paired_device "connected")
    /\ Status sc' = Status (worker paired_device "connected")
    /\ KillChannel sc'
       = (if bool_decide
               (length (KillChannel (worker paired_device "connected")) < 1)
          then KillChannel (worker paired_device "connected") ++ [true]
          else KillChannel (worker paired_device "connected"))
    /\ trace w'
       = trace (registry_a store_abc "connected")
         ++ [Lock]
         ++ match Client (worker paired_device "connected") with
            | Some c => [CallDisconnect c]
            | None => []
            end
         ++ [Log Info "Session cleaned up" "a"; Unlock]
    /\ sessionRepo w' = sessionRepo (registry_a store_abc "connected")
    /\ res_value (GetSessionStatus "a" w') = Some "disconnected".
Proof.
  apply (StopSession_registered (registry_a store_abc "connected") "a" 0
           (worker paired_device "connected"));
    vm_compute; reflexivity.
Defined.

Lemma stopped_worker_exits_witness :
  exists w',
    resume (interfere (fun w1 => res_world (StopSession "a" w1))
              (run ext_ok (GoHandleSessionConnection "a" 0)
                 (registry_a store_abc "disconnected")))
    = Done tt w'
    /\ sessions w' = delete "a" (sessions (registry_a store_abc "disconnected"))
    /\ sessionRepo w' = sessionRepo (registry_a store_abc "disconnected")
    /\ spawned (trace w')
       = spawned (trace (registry_a store_abc "disconnected"))
         ++ [GoUpdateStatus "a" "connecting"]
    /\ trace w'
       = trace (registry_a store_abc "disconnected")
         ++ [Lock; Go (GoUpdateStatus "a" "connecting"); Unlock;
             CallAddEventHandler 0;
             Log Info "Device has stored ID, attempting direct connection" "a";
             CallConnect 0;
             Lock; CallDisconnect 0; Log Info "Session cleaned up" "a";
             Unlock;
             Log Info "Session received kill signal" "a";
             CallDisconnect 0;
             Lock; Unlock].
Proof.
  apply (stopped_worker_exits ext_ok (registry_a store_abc "disconnected")
           "a" 0 (worker paired_device "disconnected") 0 paired_device
           "999@ext");
    vm_compute; reflexivity.
Defined.

Lemma GenerateQRCode_refused_witness :
  GenerateQRCode "a" empty_registry
  = Done ("", Some (Errorf ("session " +:+ "a" +:+ " not found")))
      (emit RUnlock (emit RLock empty_registry))
  /\ GenerateQRCode "a" (registry_a store_abc "connected")
     = Done ("", Some (Errorf ("session " +:+ "a" +:+ " is already connected")))
         (emit RUnlock (emit RLock (registry_a store_abc "connected"))).
Proof.
  split.
  - apply (proj1 (GenerateQRCode_refused empty_registry "a")).
    vm_compute. reflexivity.
  - apply (proj2 (GenerateQRCode_refused (registry_a store_abc "connected") "a")
             0 (worker paired_device "connected"));
      vm_compute; reflexivity.
Defined.

Lemma handleQRCodeGeneration_channel_first_witness :
  exists tl,
    trace (res_world (handleQRCodeGeneration ext_ok Background "b" 0 registry_b))
    = trace registry_b ++ CallGetQRChannel 0 :: CallConnect 0 :: tl.
Proof.
  apply (handleQRCodeGeneration_channel_first ext_ok registry_b Background
           "b" 0 (worker new_device "connecting") 0);
    vm_compute; reflexivity.
Defined.

Lemma handleQREvents_stop_at_terminal_witness :
  handleQREvents ext_ok "b"
    ([mkQRItem "code" "2@abc"] ++ mkQRItem "timeout" "" :: [mkQRItem "code" "2@def"])
    registry_b
  = handleQREvents ext_ok "b"
      ([mkQRItem "code" "2@abc"] ++ [mkQRItem "timeout" ""]) registry_b.
Proof.
  apply (handleQREvents_stop_at_terminal ext_ok "b" [mkQRItem "code" "2@abc"]
           [mkQRItem "code" "2@def"] (mkQRItem "timeout" "")).
  right. reflexivity.
Defined.

Lemma GetClient_ignores_status_witness :
  (res_value (GetClient "a" empty_registry)
   = Some (None, Some (Errorf ("session not found: " +:+ "a")))
   /\ res_value (GetSessionClient "a" empty_registry) = Some (None, false))
  /\ (res_value (GetClient "a" (registry_a store_abc "error"))
      = Some (Some 0, None)
      /\ res_value (GetSessionClient "a" (registry_a store_abc "error"))
         = Some (if bool_decide (Status (worker paired_device "error")
                                 = "connected")
                 then (Some 0, true) else (None, false))).
Proof.
  split.
  - apply (proj1 (GetClient_ignores_status empty_registry "a")).
    vm_compute. reflexivity.
  - apply (proj2 (GetClient_ignores_status (registry_a store_abc "error") "a")
             0 (worker paired_device "error") 0);
      vm_compute; reflexivity.
Defined.

Lemma GetSessionClient_iff_connected_witness :
  exists c ok,
    res_value (GetSessionClient "b" registry_ab) = Some (c, ok)
    /\ res_value (IsSessionConnected "b" registry_ab) = Some ok
    /\ (ok = false -> c = None).
Proof.
  apply (GetSessionClient_iff_connected registry_ab "b").
  apply registry_wf_check. vm_compute. reflexivity.
Defined.

Lemma GetActiveSessions_connected_witness :
  exists activeSessions,
    GetActiveSessions registry_ab
    = Done activeSessions (emit RUnlock (emit RLock registry_ab))
    /\ NoDup activeSessions
    /\ forall sessionID,
         sessionID ∈ activeSessions
         <-> exists p sc, sessions registry_ab !! sessionID = Some p
                          /\ heap registry_ab !! p = Some sc
                          /\ Status sc = "connected".
Proof.
  apply (GetActiveSessions_connected registry_ab).
  apply registry_wf_check. vm_compute. reflexivity.
Defined.

Lemma Shutdown_empties_registry_witness :
  exists w',
    Shutdown registry_ab = Done None w'
    /\ sessions w' = ∅
    /\ (forall sessionID p,
          sessions registry_ab !! sessionID = Some p -> kill_ready p w' = true)
    /\ (forall sessionID p sc c,
          sessions registry_ab !! sessionID = Some p ->
          heap registry_ab !! p = Some sc ->
          Client sc = Some c -> CallDisconnect c ∈ trace w')
    /\ spawned (trace w') = spawned (trace registry_ab)
    /\ sessionRepo w' = sessionRepo registry_ab.
Proof.
  apply (Shutdown_empties_registry registry_ab).
  apply registry_wf_check. vm_compute. reflexivity.
Defined.

Lemma ConnectSession_never_404_witness :
  exists w',
    ConnectSession ext_ok (fun _ => true) "zzz" empty_registry
    = Done (http_Error "Failed to connect session" 500) w'
    /\ sessions w' = sessions empty_registry.
Proof.
  apply (proj2 (ConnectSession_never_404 ext_ok (fun _ => true)
                  empty_registry "zzz"));
    vm_compute; reflexivity.
Defined.

Lemma LogoutSession_always_ok_witness :
  exists w',
    LogoutSession (fun _ => true) Update "a" (registry_a store_abc "connected")
    = Done (mkResponse 200
              (JSON [("session_id", "a");
                     ("status", "disconnected");
                     ("message", "Session logged out successfully")])) w'
    /\ sessions w' = delete "a" (sessions (registry_a store_abc "connected"))
    /\ sessionRepo w'
       = match domain.GetByID (sessionRepo (registry_a store_abc "connected"))
                 "a" with
         | inl session =>
             fst (Update (sessionRepo (registry_a store_abc "connected"))
                    (logged_out session))
         | inr _ => sessionRepo (registry_a store_abc "connected")
         end.
Proof.
  apply (LogoutSession_always_ok (fun _ => true) Update
           (registry_a store_abc "connected") "a").
  - vm_compute. reflexivity.
  - apply registry_wf_check. vm_compute. reflexivity.
Defined.

Lemma repository_write_to_missing_session_witness :
  UpdateStatus store_abc "zzz" "connected"
  = (store_abc, Some (ErrSessionNotFound "zzz"))
  /\ SetWAJID store_abc "zzz" "1@ext" = (store_abc, Some (ErrSessionNotFound "zzz"))
  /\ SetQRCode store_abc "zzz" "1@ext" = (store_abc, Some (ErrSessionNotFound "zzz"))
  /\ ClearQRCode store_abc "zzz" = (store_abc, Some (ErrSessionNotFound "zzz"))
  /\ (ID (row "zzz" "connected" "" "" 4) = "zzz" ->
      Update store_abc (row "zzz" "connected" "" "" 4)
      = (store_abc, Some (ErrSessionNotFound "zzz")))
  /\ Delete store_abc "zzz" = (store_abc, Some (ErrSessionNotFound "zzz"))
  /\ ExistsByID store_abc "zzz" = (false, None).
Proof.
  apply (repository_write_to_missing_session store_abc "zzz" "connected"
           "1@ext" (row "zzz" "connected" "" "" 4)).
  vm_compute. reflexivity.
Defined.

Lemma repository_write_then_read_witness :
  (exists r',
     SetQRCode store_abc "b" "connected" = (r', None)
     /\ GetByID r' "b"
        = inl (set_qr_code "connected" (db_now store_abc)
                 (row "b" "disconnected" "" "" 2))
     /\ forall id', id' <> "b" -> GetByID r' id' = GetByID store_abc id')
  /\ (exists r',
        UpdateStatus store_abc "b" "connected" = (r', None)
        /\ GetByID r' "b"
           = inl (set_status "connected" (db_now store_abc)
                    (row "b" "disconnected" "" "" 2))
        /\ forall id', id' <> "b" -> GetByID r' id' = GetByID store_abc id')
  /\ (exists r',
        SetWAJID store_abc "b" "connected" = (r', None)
        /\ GetByID r' "b"
           = inl (set_wa_jid "connected" (db_now store_abc)
                    (row "b" "disconnected" "" "" 2))
        /\ forall id', id' <> "b" -> GetByID r' id' = GetByID store_abc id').
Proof.
  apply (repository_write_then_read store_abc "b"
           (row "b" "disconnected" "" "" 2) "connected").
  vm_compute. reflexivity.
Defined.

Lemma BulkUpdateStatus_effects_witness :
  exists r',
    BulkUpdateStatus store_abc ["a"; "zzz"] "disconnected" = (r', None)
    /\ forall id,
         GetByID r' id
         = match GetByID store_abc id with
           | inl s =>
               inl (if bool_decide (id ∈ ["a"; "zzz"])
                    then set_status "disconnected" (db_now store_abc) s else s)
           | inr e => inr e
           end.
Proof.
  apply (proj2 (BulkUpdateStatus_effects store_abc ["a"; "zzz"] "disconnected")).
  - discriminate.
  - vm_compute. reflexivity.
Defined.

Lemma Delete_then_read_witness :
  ExistsByID store_abc "b" = (true, None)
  /\ exists r',
       Delete store_abc "b" = (r', None)
       /\ GetByID r' "b" = inr (ErrSessionNotFound "b")
       /\ ExistsByID r' "b" = (false, None)
       /\ forall id', id' <> "b" -> GetByID r' id' = GetByID store_abc id'.
Proof.
  apply (Delete_then_read store_abc "b" (row "b" "disconnected" "" "" 2)).
  vm_compute. reflexivity.
Defined.

Lemma GetOrCreateDevice_cache_hit_witness :
  fst (GetOrCreateDevice store_manager_a "a" "111@ext") = inl paired_device
  /\ devices (snd (GetOrCreateDevice store_manager_a "a" "111@ext"))
     = devices store_manager_a.
Proof.
  apply (GetOrCreateDevice_cache_hit store_manager_a "a" paired_device).
  vm_compute. reflexivity.
Defined.

Lemma GetOrCreateDevice_below_limit_witness :
  exists device,
    fst (GetOrCreateDevice (NewWhatsAppStoreManager container_one) "a" "bad")
    = inl device
    /\ devices (snd (GetOrCreateDevice (NewWhatsAppStoreManager container_one)
                       "a" "bad"))
       = <["a" := device]> (devices (NewWhatsAppStoreManager container_one))
    /\ GetDevice (snd (GetOrCreateDevice (NewWhatsAppStoreManager container_one)
                         "a" "bad")) "a"
       = (Some device, true)
    /\ (if bool_decide ("bad" = "") then
          device = container_NewDevice
                     (container (NewWhatsAppStoreManager container_one))
        else
          match restoreDevice (NewWhatsAppStoreManager container_one) "bad" with
          | inl (Some stored) => device = stored
          | _ => device = container_NewDevice
                            (container (NewWhatsAppStoreManager container_one))
          end).
Proof.
  apply (GetOrCreateDevice_below_limit (NewWhatsAppStoreManager container_one)
           "a" "bad");
    vm_compute; reflexivity.
Defined.

Lemma GetOrCreateDevice_within_limit_witness :
  within_limit (snd (GetOrCreateDevice store_manager_a "b" "999@ext"))
  /\ within_limit (RemoveDevice store_manager_a "b")
  /\ (devices store_manager_a !! "b" = None ->
      (Z.of_nat (size (devices store_manager_a)) >= maxDevices store_manager_a)%Z ->
      GetOrCreateDevice store_manager_a "b" "999@ext"
      = (inr (Errorf ("maximum number of devices ("
                        +:+ pretty (maxDevices store_manager_a) +:+ ") reached")),
         store_manager_a)).
Proof.
  apply (GetOrCreateDevice_within_limit store_manager_a "b" "999@ext").
  vm_compute. discriminate.
Defined.

Lemma parsePhoneToJID_ok_witness :
  Server (mkJID "5511999998888" "s.whatsapp.net") = "s.whatsapp.net"
  /\ all_digits (User (mkJID "5511999998888" "s.whatsapp.net")) = true
  /\ 10 <= String.length (User (mkJID "5511999998888" "s.whatsapp.net"))
  /\ parsePhoneToJID (User (mkJID "5511999998888" "s.whatsapp.net"))
     = inl (mkJID "5511999998888" "s.whatsapp.net").
Proof.
  apply (parsePhoneToJID_ok "+55 (11) 99999-8888"
           (mkJID "5511999998888" "s.whatsapp.net")).
  vm_compute. reflexivity.
Defined.

(** With a dash (the character 45) after the country code. *)
Lemma parsePhoneToJID_ignores_separators_witness :
  match parsePhoneToJID
          ("55" +:+ String.String (Ascii.ascii_of_nat 45) "11999998888"),
        parsePhoneToJID ("55" +:+ "11999998888") with
  | inl jid1, inl jid2 => jid1 = jid2
  | inr _, inr _ => True
  | _, _ => False
  end.
Proof.
  apply (parsePhoneToJID_ignores_separators "55" "11999998888"
           (Ascii.ascii_of_nat 45)).
  vm_compute. reflexivity.
Defined.
